(** * Contract integrity and lifecycle engine: a shallow embedding

    The Go sources embedded here are
    - [common/contract]: the immutable contract document, its validators and
      the signature-completeness check ([methods.go] and the type file);
    - [service]: the digest ([JsonHashS256]), request parsing and the ledger
      operations [CreateAsset], [VoidAsset], [ExpireAsset], [ReadAsset] and
      [AssetExists].

    Go values are modelled as follows: [int64] and [int] as [Z] (they are
    compared only, but for the counter of signatories, which is bounded by
    the length of a slice), [string] as [string] (a sequence of bytes, so
    that Go's [len] is [String.length]), [[]byte] as [list byte], slices as
    lists, a pointer that may be nil as [option], an [error] as an optional
    message and a [(T, error)] pair as [result T]. *)

From Stdlib Require Import ZArith String Ascii List Lia Strings.Byte.
From stdpp Require Import base option list strings pretty gmap sorting.

Local Open Scope string_scope.
Local Open Scope Z_scope.

(** ** Errors *)

(** A Go [(T, error)] return value: either the value or the error message. *)
Inductive result (A : Type) : Type :=
  | Ok (a : A)
  | Err (msg : string).
Arguments Ok {A} a.
Arguments Err {A} msg.

(** A Go [error] return value: [None] is [nil]. *)
Definition error : Type := option string.

Definition rbind {A B} (r : result A) (k : A -> result B) : result B :=
  match r with
  | Ok a => k a
  | Err e => Err e
  end.

Notation "x <-r e ; k" := (rbind e (fun x => k))
  (at level 100, e at next level, k at level 200, right associativity).

Definition is_ok {A} (r : result A) : bool :=
  match r with Ok _ => true | Err _ => false end.

(** [contains sub s]: the text [sub] occurs in [s]. *)
Fixpoint contains (sub s : string) : bool :=
  String.prefix sub s ||
  match s with
  | EmptyString => false
  | String _ s' => contains sub s'
  end.

(** Go's [time.Time], as the offset from the zero instant: [IsZero] tests for
    that instant and [Before] is the strict order. *)
Definition Time : Type := Z.
Definition IsZero (t : Time) : bool := t =? 0.
Definition Before (t u : Time) : bool := t <? u.

(** [fmt.Sprint] on an [int64]: its decimal form. *)
Definition Sprint (n : Z) : string := pretty n.

(** * Package [contract] *)

Module contract.

Definition SHA256_HASH_BASE64_LENGTH : nat := 44.
Definition SIGNATURE_RSA2048_BASE64_LENGTH : nat := 344.

Definition Creator : string := "creator".
Definition Beneficiary : string := "beneficiary".
Definition Notary : string := "notary".
Definition Verifier : string := "verifier".
Definition Signatory : string := "signatory".

Definition SignPackageMethodId_Unknown : Z := 0.
Definition SignPackageMethodId_OriginalContent : Z := 1.
Definition SignPackageMethodId_Constructed : Z := 2.
Definition SignPackageMethodId_Embedded : Z := 3.

(** Struct fields carry a prefix naming their struct, since several structs
    share field names. Fields that none of the embedded functions reads are
    left out of the larger structs. *)

Record KeyInfo := {
  ki_KeyId : string;
  ki_KeyType : string;
  ki_KeySource : string;
  ki_KeyFingerprint : string;
  ki_X509Certificate : string
}.

Record ContractParticipant := {
  cp_UserId : string;
  cp_Roles : list string;
  cp_FullName : string;
  cp_CanVoidContract : bool;
  cp_KycLevel : Z
}.

Record ContractOptions := {
  co_ExpiryDate : option Time;
  co_EffectiveDate : option Time;
  co_VoidableByAuthorPriorToInstantiation : bool;
  co_VoidableByAuthor : bool;
  co_VoidableByParticipants : bool;
  co_VoidableByNotary : bool;
  co_DaysToSign : Z;
  co_MaxDaysToSign : Z;
  co_AllowSignatureExtension : bool
}.

Record SignatureMethod := {
  sm_PackageMethodId : Z;
  sm_SignatureType : string;
  sm_SignatureProvider : string
}.

Record NotaryInstructPackage := {
  nip_ContractId : Z;
  nip_RequestId : string;
  nip_NotaryId : string;
  nip_ApprovalState : string
}.

Record CreatorAcceptancePackage := {
  cap_ContractId : Z;
  cap_NotarySignatureHash : string
}.

Record ReleaseInstructionDetail := {
  rid_Instructions : string;
  rid_IsCustomRelease : bool;
  rid_StandardReleaseTemplateId : Z;
  rid_NotaryPackage : option NotaryInstructPackage;
  rid_AcceptancePackage : option CreatorAcceptancePackage;
  rid_NotarySignature : string;
  rid_AcceptanceSignature : string;
  rid_IsEvidenceRequiredForRelease : bool;
  rid_ConsensusMethod : string;
  rid_MinVerifiersForConsensus : Z
}.

Record ContractDefinition := {
  cd_ContractFamilyId : Z;
  cd_ContractType : Z;
  cd_ContractTypeVersion : Z;
  cd_SchemaVersion : Z;
  cd_ContractNameEnglish : string
}.

Record ContractBlock := {
  cb_ContractID : Z;
  cb_SchemaVersion : Z;
  cb_Language : string;
  cb_ContractFamilyId : Z;
  cb_ContractTypeId : Z;
  cb_ContractTypeVersion : Z;
  cb_ContractName : string;
  cb_Participants : list ContractParticipant;
  cb_ContractOptions : ContractOptions;
  cb_SignatureMethod : SignatureMethod;
  cb_StorageYears : Z;
  cb_ReleaseInstructions : option ReleaseInstructionDetail;
  cb_Definition : ContractDefinition;
  cb_DefinitionVersion : Z;
  cb_SealedOnDate : Time
}.

Record ContractSignaturePackage := {
  csp_SignatureId : string;
  csp_ContractId : Z;
  csp_ContractHash : string;
  csp_UserId : string;
  csp_UserFullName : string;
  csp_DateSigned : Time;
  csp_IpAddress : string;
  csp_SignatureProvider : string;
  csp_SignatureType : string;
  csp_KeyInfo : KeyInfo;
  csp_IsApprover : bool
}.

Record SignedContractSignature := {
  scs_ContractSignaturePackage : ContractSignaturePackage;
  scs_ContractSignaturePackageHash : string;
  scs_Signature : string
}.

Record ContractSignatures := {
  cs_ContractHash : string;
  cs_HasApprovers : bool;
  cs_SealedOnDate : Time;
  cs_Signatures : list SignedContractSignature
}.

Record ImmutableContract := {
  ic_Contract : ContractBlock;
  ic_ContractHash : string;
  ic_ContractSignatures : ContractSignatures;
  ic_ContractSignaturesHash : string;
  ic_SealedOnDate : Time
}.

(** ** [ContractParticipant.IsRole] *)

(** The body of the [range] loop returns in its first iteration, so the
    loop never reaches a second element. *)
Definition IsRole_loop (roles : list string) (role : string) : bool :=
  match roles with
  | r :: _ => String.eqb r role
  | [] => false
  end.

Definition IsRole (c : option ContractParticipant) (role : string) : bool :=
  match c with
  | None => false
  | Some c =>
      if String.eqb role "" then false
      else IsRole_loop (cp_Roles c) role
  end.

(** ** [ContractBlock.GetSignatoryCountFromParticipants] *)

Fixpoint count_signatories (ps : list ContractParticipant) (count : Z) : Z :=
  match ps with
  | [] => count
  | p :: ps' =>
      count_signatories ps'
        (if IsRole (Some p) Signatory then count + 1 else count)
  end.

Definition GetSignatoryCountFromParticipants (c : option ContractBlock) : Z :=
  match c with
  | None => 0
  | Some c => count_signatories (cb_Participants c) 0
  end.

(** ** [ContractBlock.Validate] *)

Definition ContractBlock_Validate (cb : ContractBlock) : error :=
  let d := cb_Definition cb in
  if negb (cb_ContractFamilyId cb =? cd_ContractFamilyId d) then
    Some "invalid contract family id"
  else if negb (cb_ContractTypeId cb =? cd_ContractType d) then
    Some "invalid contract type id"
  else if cb_ContractTypeVersion cb =? 0 then
    Some "invalid contract type version"
  else if (cb_StorageYears cb <? 1) || (cb_StorageYears cb >? 30) then
    Some "invalid storage years"
  else
    let opt := cb_ContractOptions cb in
    match co_ExpiryDate opt with
    | Some expiry =>
        if Before expiry (cb_SealedOnDate cb) then
          Some "invalid expiry date"
        else if co_DaysToSign opt <? 1 then
          Some "invalid days to sign"
        else if co_AllowSignatureExtension opt && (co_MaxDaysToSign opt <? 1) then
          Some "invalid days to sign extension"
        else None
    | None => None
    end.

(** ** [ReleaseInstructionDetail.Validate] *)

Definition InstructionMinLength : nat := 60.

Definition ReleaseInstructionDetail_Validate
    (rid : ReleaseInstructionDetail) (evidenceRequired : bool) : error :=
  if (String.length (rid_Instructions rid) <? InstructionMinLength)%nat then
    Some "invalid instructions"
  else if negb (rid_IsCustomRelease rid) then
    if rid_StandardReleaseTemplateId rid <? 1 then
      Some "invalid standard release template id"
    else None
  else
    match rid_NotaryPackage rid with
    | Some np =>
        if String.eqb (rid_NotarySignature rid) "" then
          Some "invalid notary signature"
        else if negb (String.eqb (nip_ApprovalState np) "none") then
          match rid_AcceptancePackage rid with
          | None => Some "invalid acceptance package"
          | Some _ =>
              if String.eqb (rid_AcceptanceSignature rid) "" then
                Some "invalid acceptance signature"
              else None
          end
        else None
    | None =>
        if String.eqb (rid_ConsensusMethod rid) "" then
          Some "invalid consensus method"
        else if evidenceRequired && negb (rid_IsEvidenceRequiredForRelease rid) then
          Some "invalid evidence required for release flag"
        else None
    end.

(** ** [ImmutableContract.ValidateSignaturesComplete] *)

Definition formatSignedPackageErr (userId userName msgPostfix : string) : string :=
  "contract signature package for user id '" ++ userId ++ "' and name '"
    ++ userName ++ "', has error: " ++ msgPostfix.

(** The checks on a package whose [UserId] is the participant's. The two
    branches on [requireConstructedContent] in the source hold comments
    only and are left out. *)
Definition check_matching_package
    (c : ImmutableContract) (isEmbedded : bool)
    (sp : SignedContractSignature) : error :=
  let pk := scs_ContractSignaturePackage sp in
  let fail := formatSignedPackageErr (csp_UserId pk) (csp_UserFullName pk) in
  if String.eqb (csp_UserFullName pk) "" then
    Some (fail "full name not set")
  else if IsZero (csp_DateSigned pk) then
    Some (fail "signed on data not set")
  else if negb (String.length (csp_ContractHash pk) =? SHA256_HASH_BASE64_LENGTH)%nat then
    Some (fail "package hash no set or incorrect length")
  else if negb (String.eqb (cs_ContractHash (ic_ContractSignatures c)) (csp_ContractHash pk)) then
    Some (fail "contract hash does not match contract hash in signature package")
  else if negb (csp_ContractId pk =? cb_ContractID (ic_Contract c)) then
    Some (fail "contract id does not match contract id in signature package")
  else if negb isEmbedded then
    if negb (String.length (scs_ContractSignaturePackageHash sp) =? SHA256_HASH_BASE64_LENGTH)%nat then
      Some (fail "package hash not of correct length")
    else if String.eqb (scs_Signature sp) "" then
      Some (fail "missing signature")
    else if negb (String.length (scs_Signature sp) =? SIGNATURE_RSA2048_BASE64_LENGTH)%nat then
      Some (fail "signature is not of correct length ")
    else None
  else None.

Definition missing_package_err (userId : string) : string :=
  "contract signatures block does not have a signature package for signatory user id '"
    ++ userId ++ "'".

(** One iteration of the inner loop, over the signature packages. [found] is
    the variable declared before the outer loop; the result is its value
    after the iteration, or the error returned. *)
Definition signature_step
    (c : ImmutableContract) (isEmbedded : bool) (p : ContractParticipant)
    (sp : SignedContractSignature) (found : bool) : result bool :=
  found' <-r
    (if String.eqb (csp_UserId (scs_ContractSignaturePackage sp)) (cp_UserId p) then
       match check_matching_package c isEmbedded sp with
       | Some e => Err e
       | None => Ok true
       end
     else Ok found);
  if negb found' then Err (missing_package_err (cp_UserId p))
  else Ok found'.

Fixpoint signatures_loop
    (c : ImmutableContract) (isEmbedded : bool) (p : ContractParticipant)
    (sps : list SignedContractSignature) (found : bool) : result bool :=
  match sps with
  | [] => Ok found
  | sp :: sps' =>
      found' <-r signature_step c isEmbedded p sp found;
      signatures_loop c isEmbedded p sps' found'
  end.

(** The outer loop, over the participants. [found] is not reset between
    participants. *)
Fixpoint participants_loop
    (c : ImmutableContract) (isEmbedded : bool)
    (ps : list ContractParticipant) (found : bool) : result bool :=
  match ps with
  | [] => Ok found
  | p :: ps' =>
      if IsRole (Some p) Signatory then
        found' <-r signatures_loop c isEmbedded p
                     (cs_Signatures (ic_ContractSignatures c)) found;
        participants_loop c isEmbedded ps' found'
      else participants_loop c isEmbedded ps' found
  end.

Definition ValidateSignaturesComplete (c : option ImmutableContract) : error :=
  match c with
  | None => Some "contract container is nil for method: ValidateSignaturesComplete"
  | Some c =>
      if negb (String.length (cs_ContractHash (ic_ContractSignatures c))
               =? SHA256_HASH_BASE64_LENGTH)%nat then
        Some "contract signatures block does not have a contract hash set, or is not of correct length"
      else
        let signedPackCount :=
          Z.of_nat (List.length (cs_Signatures (ic_ContractSignatures c))) in
        if signedPackCount =? 0 then
          Some "contract signatures block does not have any signature packages set"
        else
          let signatoryCount := GetSignatoryCountFromParticipants (Some (ic_Contract c)) in
          if negb (signedPackCount =? signatoryCount) then
            Some "contract signatures block does not have the same number of signature packages as there are signatories"
          else
            let isEmbedded :=
              sm_PackageMethodId (cb_SignatureMethod (ic_Contract c))
                =? SignPackageMethodId_Embedded in
            match participants_loop c isEmbedded
                    (cb_Participants (ic_Contract c)) false with
            | Err e => Some e
            | Ok _ => None
            end
  end.

(** ** The other validators of [methods.go] *)

Record ContractUserRoleDefinition := {
  urd_Role : string;
  urd_Min : Z;
  urd_Max : Z;
  urd_IncludeRoleInCount : string;
  urd_MinKycLevel : Z
}.

Record ContractProxyInstructions := {
  pi_Instructions : string;
  pi_VisibleToAll : bool;
  pi_InstructionsHash : string
}.

Record ConstructedContentItem := {
  cci_ContentId : Z;
  cci_OrigContentIds : list Z;
  cci_ItemRole : string;
  cci_PlainHash : string;
  cci_EncryptedHash : string;
  cci_ConstructTypes : string
}.

(** [ContractDefinition.UserRoleDefinition]. The method reads the
    [UserRoles] of its receiver and nothing else of it; the slice is the
    argument here. The pointer returned is to a copy of the element. *)
Fixpoint UserRoleDefinition
    (userRoles : list ContractUserRoleDefinition) (role : string)
    : option ContractUserRoleDefinition :=
  match userRoles with
  | [] => None
  | ur :: rest =>
      if String.eqb (urd_Role ur) role then Some ur
      else UserRoleDefinition rest role
  end.

Definition SignatureMethod_Validate (sm : SignatureMethod) : error :=
  if String.eqb (sm_SignatureType sm) "" then
    Some "invalid signature type"
  else if negb (String.eqb (sm_SignatureType sm) "advanced")
          && negb (String.eqb (sm_SignatureType sm) "qualified") then
    Some "invalid signature type"
  else if negb (sm_PackageMethodId sm =? 1) && negb (sm_PackageMethodId sm =? 2)
          && negb (sm_PackageMethodId sm =? 3) then
    Some "invalid package method id"
  else if negb (String.eqb (sm_SignatureProvider sm) "Subskribo")
          && negb (String.eqb (sm_SignatureProvider sm) "Connective") then
    Some "invalid signature provider"
  else None.

Definition ContractProxyInstructions_Validate (pi : ContractProxyInstructions) : error :=
  if pi_VisibleToAll pi && String.eqb (pi_Instructions pi) "" then
    Some "invalid instructions"
  else if String.eqb (pi_InstructionsHash pi) "" then
    Some "invalid instructions hash"
  else None.

Definition ConstructedContentItem_Validate (cc : ConstructedContentItem) : error :=
  if cci_ContentId cc <? 1 then
    Some "invalid content id"
  else if String.eqb (cci_PlainHash cc) "" then
    Some "invalid plain hash"
  else None.

Definition KeyInfo_Validate (k : KeyInfo) : error :=
  if String.eqb (ki_X509Certificate k) "" then
    if String.eqb (ki_KeyId k) "" then
      Some "invalid key id"
    else if String.eqb (ki_KeyType k) "" then
      Some "invalid key type"
    else if String.eqb (ki_KeySource k) "" then
      Some "invalid key source"
    else None
  else None.

Definition ContractSignaturePackage_Validate
    (sp : ContractSignaturePackage) (signatureMethodId : Z) : error :=
  if csp_ContractId sp <? 1 then
    Some "invalid contract id"
  else if String.eqb (csp_ContractHash sp) "" then
    Some "invalid contract hash"
  else if String.eqb (csp_UserId sp) "" then
    Some "invalid user id"
  else if String.eqb (csp_UserFullName sp) "" then
    Some "invalid user full name"
  else if IsZero (csp_DateSigned sp) then
    Some "invalid date signed"
  else if String.eqb (csp_SignatureType sp) "" then
    Some "invalid signature type"
  else if negb (signatureMethodId =? 3) then
    if String.eqb (csp_SignatureId sp) "" then
      Some "invalid signature id"
    else if String.eqb (csp_IpAddress sp) "" then
      Some "invalid ip address"
    else if String.eqb (csp_SignatureProvider sp) "" then
      Some "invalid signature provider"
    else
      match KeyInfo_Validate (csp_KeyInfo sp) with
      | Some e => Some e
      | None =>
          if String.eqb (csp_ContractHash sp) "" then
            Some "invalid contract hash"
          else None
      end
  else None.

(** ** Notions for the results on [ValidateSignaturesComplete] *)

(** The participants that [IsRole] counts as signatories. *)
Definition is_signatory (p : ContractParticipant) : bool := IsRole (Some p) Signatory.

(** The packages of [sps] that carry the user id of [p] pass the checks
    on a matching package. *)
Definition packages_pass (c : ImmutableContract) (isEmbedded : bool)
    (sps : list SignedContractSignature) (p : ContractParticipant) : Prop :=
  forall sp, In sp sps ->
    csp_UserId (scs_ContractSignaturePackage sp) = cp_UserId p ->
    check_matching_package c isEmbedded sp = None.

End contract.

(** * The Go standard library, as far as the service uses it *)

(** [base64.StdEncoding.EncodeToString]: three bytes give four characters
    of the standard alphabet, a last group of one or two bytes is padded
    with [=]. *)
Module base64.

Definition encodeStd : string :=
  "ABCDEFGHIJKLMNOPQRSTUVWXYZabcdefghijklmnopqrstuvwxyz0123456789+/".

Definition StdPadding : ascii := "="%char.

Definition enc (v : N) : ascii :=
  match String.get (N.to_nat (N.land v 63)) encodeStd with
  | Some ch => ch
  | None => StdPadding
  end.

Definition group (b0 b1 b2 : byte) : N :=
  N.lor (N.lor (N.shiftl (Byte.to_N b0) 16) (N.shiftl (Byte.to_N b1) 8))
        (Byte.to_N b2).

Fixpoint EncodeToString (src : list byte) : string :=
  match src with
  | [] => ""
  | [b0] =>
      let val := N.shiftl (Byte.to_N b0) 16 in
      String (enc (N.shiftr val 18)) (String (enc (N.shiftr val 12))
        (String StdPadding (String StdPadding "")))
  | [b0; b1] =>
      let val := N.lor (N.shiftl (Byte.to_N b0) 16) (N.shiftl (Byte.to_N b1) 8) in
      String (enc (N.shiftr val 18)) (String (enc (N.shiftr val 12))
        (String (enc (N.shiftr val 6)) (String StdPadding "")))
  | b0 :: b1 :: b2 :: rest =>
      let val := group b0 b1 b2 in
      String (enc (N.shiftr val 18)) (String (enc (N.shiftr val 12))
        (String (enc (N.shiftr val 6)) (String (enc val)
          (EncodeToString rest))))
  end.

End base64.

(** What the service needs of [encoding/json], [crypto/sha256] and
    [encoding/base64]'s decoder is taken as given: [json.Compact], the
    SHA-256 digest with its size of 32 bytes, and the unpadded decoder. *)
Class GoRuntime := {
  json_Compact : list byte -> result (list byte);
  sha256_Sum : list byte -> list byte;
  sha256_Size : forall b, List.length (sha256_Sum b) = 32%nat;
  base64_RawStd_DecodeString : string -> result (list byte)
}.

(** [json.Marshal] and [json.Unmarshal] at a Go type. *)
Class JSON (T : Type) := {
  json_Marshal : T -> result (list byte);
  json_Unmarshal : list byte -> result T
}.

(** [crypto/md5], with its digest size of 16 bytes. *)
Class GoMD5 := {
  md5_Sum : list byte -> list byte;
  md5_Size : forall b, List.length (md5_Sum b) = 16%nat
}.

(** [fmt.Sprintf("%x", b)] on bytes: two lower-case hexadecimal digits for
    each byte. *)
Module hex.

Definition digits : string := "0123456789abcdef".

Definition digit (v : N) : ascii :=
  match String.get (N.to_nat (N.land v 15)) digits with
  | Some ch => ch
  | None => "0"%char
  end.

Fixpoint Sprintf_x (b : list byte) : string :=
  match b with
  | [] => ""
  | b0 :: rest =>
      String (digit (N.shiftr (Byte.to_N b0) 4))
        (String (digit (Byte.to_N b0)) (Sprintf_x rest))
  end.

(** [strings.ToUpper] on a string of ASCII characters. *)
Definition upper (ch : ascii) : ascii :=
  let n := N_of_ascii ch in
  if (97 <=? n)%N && (n <=? 122)%N then ascii_of_N (n - 32) else ch.

Fixpoint ToUpper (s : string) : string :=
  match s with
  | EmptyString => EmptyString
  | String ch s' => String (upper ch) (ToUpper s')
  end.

(** The characters of an upper-case hexadecimal number. *)
Definition is_upper_hex (ch : ascii) : bool :=
  existsb (Ascii.eqb ch) (list_ascii_of_string "0123456789ABCDEF").

End hex.

(** * Package [service] *)

Module service.
Import contract.

Definition ContractStateActive : string := "active".
Definition ContractStateVoided : string := "voided".
Definition ContractStateExpired : string := "expired".
Definition ContractStateReleased : string := "released".

Record NewAssetReq := {
  nar_ImmutableContract : ImmutableContract;
  nar_ImmutableContractHash : string;
  nar_NotaryOU : string
}.

Record VoidAssetReq := {
  var_ImmutableContract : ImmutableContract;
  var_ImmutableContractHash : string;
  var_ContractId : Z;
  var_PackageId : Z;
  var_PackageHash : string
}.

Record Change := {
  PackageID : Z;
  PackageHash : string;
  PackageDate : string;
  CallerSdn : string;
  Action : string;
  NewState : string
}.

Record Contract := {
  ContractId : Z;
  Version : Z;
  ContractHash : string;
  CreatedAt : string;
  UpdatedAt : string;
  State : string;
  Changes : list Change
}.

Record CreateAssetResponse := {
  car_ContractId : Z;
  car_TxId : string
}.

Record VoidResponse := { vr_TxId : string }.
Record ExpireResponse := { er_TxId : string }.

(** ** The transaction context

    What [contractapi.TransactionContextInterface] and its stub give the
    service: the world state, [PutState] (whose calls are logged here),
    the transaction id; and from the process, the peer's MSP id and the
    clock. [ctx_getErr] and [ctx_putErr] say for which keys the ledger
    refuses a read or a write. *)
Record Ctx := {
  ctx_state : gmap string (list byte);
  ctx_putLog : list (string * list byte);
  ctx_txId : string;
  ctx_getErr : string -> option string;
  ctx_putErr : string -> option string;
  ctx_mspId : result string;
  ctx_now : string
}.

(** A computation on the context that may fail. *)
Definition M (A : Type) : Type := Ctx -> result A * Ctx.

Definition ret {A} (a : A) : M A := fun ctx => (Ok a, ctx).
Definition fail {A} (msg : string) : M A := fun ctx => (Err msg, ctx).
Definition lift {A} (r : result A) : M A := fun ctx => (r, ctx).
Definition check (e : error) : M unit :=
  fun ctx => match e with
             | Some msg => (Err msg, ctx)
             | None => (Ok tt, ctx)
             end.
Definition bind {A B} (m : M A) (k : A -> M B) : M B :=
  fun ctx => match m ctx with
             | (Ok a, ctx') => k a ctx'
             | (Err e, ctx') => (Err e, ctx')
             end.

Notation "x <- e ;; k" := (bind e (fun x => k))
  (at level 100, e at next level, k at level 200, right associativity).

Definition GetState (key : string) : M (option (list byte)) :=
  fun ctx => match ctx_getErr ctx key with
             | Some e => (Err e, ctx)
             | None => (Ok (ctx_state ctx !! key), ctx)
             end.

(** The context after a write of [value] under [key]. *)
Definition written (ctx : Ctx) (key : string) (value : list byte) : Ctx :=
  {| ctx_state := <[key := value]> (ctx_state ctx);
     ctx_putLog := ctx_putLog ctx ++ [(key, value)];
     ctx_txId := ctx_txId ctx;
     ctx_getErr := ctx_getErr ctx;
     ctx_putErr := ctx_putErr ctx;
     ctx_mspId := ctx_mspId ctx;
     ctx_now := ctx_now ctx |}.

Definition PutState (key : string) (value : list byte) : M unit :=
  fun ctx => match ctx_putErr ctx key with
             | Some e => (Err e, ctx)
             | None => (Ok tt, written ctx key value)
             end.

Definition GetTxID : M string := fun ctx => (Ok (ctx_txId ctx), ctx).
Definition GetMSPID : M string := fun ctx => (ctx_mspId ctx, ctx).

(** [time.Now().Format(time.RFC3339)] *)
Definition Now : M string := fun ctx => (Ok (ctx_now ctx), ctx).

(** [fmt.Errorf("...: %v", err)] around a failing computation. *)
Definition wrap_err {A} (pre : string) (m : M A) : M A :=
  fun ctx => match m ctx with
             | (Err e, ctx') => (Err (pre ++ e), ctx')
             | r => r
             end.

(** An entry of a range scan, and the order of a scan: by key, bytewise. *)
Definition QueryResult : Type := string * list byte.

Definition key_le (x y : QueryResult) : Prop := String.leb (fst x) (fst y) = true.

Global Instance key_le_dec : RelDecision key_le :=
  fun x y => decide (String.leb (fst x) (fst y) = true).

Section Service.
Context `{GoRuntime}.

(** ** [JsonHashS256] and [ParseRequest] *)

(** [data] is an [interface{}]: [None] is the nil interface. *)
Definition JsonHashS256 {T} `{JSON T} (data : option T) : result string :=
  match data with
  | None => Err "data is nil"
  | Some d =>
      bytesData <-r json_Marshal d;
      bb <-r json_Compact bytesData;
      Ok (base64.EncodeToString (sha256_Sum bb))
  end.

Definition ParseRequest {T} `{JSON T} (data : string) : result T :=
  if String.eqb data "" then Err "data is empty"
  else
    dataBytes <-r base64_RawStd_DecodeString data;
    json_Unmarshal dataBytes.

Context `{JSON ImmutableContract} `{JSON Contract}
        `{JSON NewAssetReq} `{JSON VoidAssetReq}.

(** ** [ReadAsset] and [AssetExists] *)

Definition ReadAsset (id : string) : M Contract :=
  contractJSON <- wrap_err "failed to read from world state: " (GetState id);;
  match contractJSON with
  | None => fail ("the asset " ++ id ++ " does not exist")
  | Some contractJSON => lift (json_Unmarshal contractJSON)
  end.

Definition AssetExists (id : string) : M bool :=
  assetJSON <- wrap_err "failed to read from world state: " (GetState id);;
  ret (match assetJSON with Some _ => true | None => false end).

(** ** [CreateAsset] *)

(** The asset built for a request at time [t]. *)
Definition new_contract (cc : NewAssetReq) (t : string) : Contract :=
  {| ContractHash := nar_ImmutableContractHash cc;
     CreatedAt := t;
     UpdatedAt := t;
     State := ContractStateActive;
     Version := cb_SchemaVersion (ic_Contract (nar_ImmutableContract cc));
     Changes := [];
     ContractId := cb_ContractID (ic_Contract (nar_ImmutableContract cc)) |}.

Definition CreateAsset (data : string) : M CreateAssetResponse :=
  cc <- lift (ParseRequest (T := NewAssetReq) data);;
  icHash <- lift (JsonHashS256 (Some (nar_ImmutableContract cc)));;
  if negb (String.eqb icHash (nar_ImmutableContractHash cc)) then
    fail "invalid immutable contract hash"
  else
  _ <- check (ContractBlock_Validate (ic_Contract (nar_ImmutableContract cc)));;
  t <- Now;;
  let contract := new_contract cc t in
  let contractIdStr := Sprint (ContractId contract) in
  exists_ <- AssetExists contractIdStr;;
  if (exists_ : bool) then
    fail ("the contract " ++ Sprint (ContractId contract) ++ " already exists")
  else
  contractJSON <- lift (json_Marshal contract);;
  _ <- PutState contractIdStr contractJSON;;
  txId <- GetTxID;;
  ret {| car_ContractId := ContractId contract; car_TxId := txId |}.

(** ** [VoidAsset] and [ExpireAsset] *)

(** The state change both transitions make on the asset read. *)
Definition transition (asset : Contract) (cc : VoidAssetReq)
    (t newState action : string) : Contract :=
  {| ContractId := ContractId asset;
     Version := Version asset;
     ContractHash := ContractHash asset;
     CreatedAt := CreatedAt asset;
     UpdatedAt := t;
     State := newState;
     Changes := Changes asset ++
       [ {| PackageID := var_PackageId cc;
            PackageHash := var_PackageHash cc;
            PackageDate := t;
            CallerSdn := "";
            Action := action;
            NewState := newState |} ] |}.

Definition VoidAsset (data : string) : M VoidResponse :=
  cc <- lift (ParseRequest (T := VoidAssetReq) data);;
  icHash <- lift (JsonHashS256 (Some (var_ImmutableContract cc)));;
  if negb (String.eqb icHash (var_ImmutableContractHash cc)) then
    fail "invalid immutable contract hash"
  else
  if negb (cb_SchemaVersion (ic_Contract (var_ImmutableContract cc))
           =? cd_SchemaVersion (cb_Definition (ic_Contract (var_ImmutableContract cc)))) then
    fail "contract schema version does not match with definition"
  else
  _ <- check (ContractBlock_Validate (ic_Contract (var_ImmutableContract cc)));;
  peerOrgID <- wrap_err "failed getting peer's orgID: " GetMSPID;;
  asset <- ReadAsset (Sprint (var_ContractId cc));;
  if String.eqb (State asset) ContractStateVoided then
    fail "contract already voided"
  else if String.eqb (State asset) ContractStateExpired then
    fail "contract expired, cannot void"
  else if String.eqb (State asset) ContractStateReleased then
    fail "contract released, cannot void"
  else
  t <- Now;;
  let asset := transition asset cc t ContractStateVoided "void" in
  contractJSON <- lift (json_Marshal asset);;
  _ <- PutState (Sprint (ContractId asset)) contractJSON;;
  txId <- GetTxID;;
  ret {| vr_TxId := txId |}.

(** [ExpireAsset] parses its request as a [VoidAssetReq], and writes under
    the request's contract id. *)
Definition ExpireAsset (data : string) : M ExpireResponse :=
  cc <- lift (ParseRequest (T := VoidAssetReq) data);;
  icHash <- lift (JsonHashS256 (Some (var_ImmutableContract cc)));;
  if negb (String.eqb icHash (var_ImmutableContractHash cc)) then
    fail "invalid immutable contract hash"
  else
  if negb (cb_SchemaVersion (ic_Contract (var_ImmutableContract cc))
           =? cd_SchemaVersion (cb_Definition (ic_Contract (var_ImmutableContract cc)))) then
    fail "contract schema version does not match with definition"
  else
  _ <- check (ContractBlock_Validate (ic_Contract (var_ImmutableContract cc)));;
  asset <- ReadAsset (Sprint (var_ContractId cc));;
  if String.eqb (State asset) ContractStateVoided then
    fail "contract voided, cannot expire"
  else if String.eqb (State asset) ContractStateExpired then
    fail "contract already expired"
  else if String.eqb (State asset) ContractStateReleased then
    fail "contract released, cannot expire"
  else
  t <- Now;;
  let asset := transition asset cc t ContractStateExpired "expire" in
  contractJSON <- lift (json_Marshal asset);;
  _ <- PutState (Sprint (var_ContractId cc)) contractJSON;;
  txId <- GetTxID;;
  ret {| er_TxId := txId |}.

(** ** [GetAllAssets]

    The answers of the ledger to [GetStateByRange] and to the [Next] calls
    on its iterator are the argument: the scan fails, or gives an iterator
    whose [Next] gives an entry or fails. The function returns its slice
    together with the error. *)
Fixpoint GetAllAssets_loop
    (resultsIterator : list (result QueryResult)) (cSlice : list Contract)
    : list Contract * error :=
  match resultsIterator with
  | [] => (cSlice, None)
  | Err e :: _ => (cSlice, Some e)
  | Ok queryResponse :: rest =>
      match json_Unmarshal (snd queryResponse) with
      | Err e => (cSlice, Some e)
      | Ok c => GetAllAssets_loop rest (cSlice ++ [c])
      end
  end.

Definition GetAllAssets (scan : result (list (result QueryResult)))
    : list Contract * error :=
  match scan with
  | Err e => ([], Some e)
  | Ok resultsIterator => GetAllAssets_loop resultsIterator []
  end.

(** [c] is what an entry of a scan decodes to. *)
Definition decodes_to (q : result QueryResult) (c : Contract) : Prop :=
  exists kv, q = Ok kv /\ json_Unmarshal (snd kv) = Ok c.

(** What a scan of the whole world state answers when the ledger does not
    fail: every entry, in the order of the keys. *)
Definition full_scan (ctx : Ctx) : result (list (result QueryResult)) :=
  Ok (List.map Ok (merge_sort key_le (map_to_list (ctx_state ctx)))).

(** ** [Contract.Checksum] *)

Definition Checksum `{GoMD5} (e : Contract) : string :=
  hex.ToUpper (hex.Sprintf_x (md5_Sum (list_byte_of_string (ContractHash e)))).

(** ** Ledgers written by the service *)

Definition lifecycle_state (s : string) : Prop :=
  s = ContractStateActive \/ s = ContractStateVoided \/
  s = ContractStateExpired \/ s = ContractStateReleased.

(** [asset] is what [ReadAsset] decodes under [key]. *)
Definition stored_asset (ctx : Ctx) (key : string) (asset : Contract) : Prop :=
  exists b, ctx_state ctx !! key = Some b /\ json_Unmarshal b = Ok asset.

(** Every asset is stored under the string form of its own [ContractId]
    and is in one of the four lifecycle states. [CreateAsset] stores assets
    so, and the transitions keep it. *)
Definition ledger_wf (ctx : Ctx) : Prop :=
  forall key asset, stored_asset ctx key asset ->
    Sprint (ContractId asset) = key /\ lifecycle_state (State asset).

(** The checks the three operations make on the document of a request,
    before they look at the ledger. *)
Definition hash_bound (ic : ImmutableContract) (claimed : string) : Prop :=
  JsonHashS256 (Some ic) = Ok claimed.

Definition schema_version_matches (cb : ContractBlock) : Prop :=
  cb_SchemaVersion cb = cd_SchemaVersion (cb_Definition cb).

(** [CreateAsset]: parse, hash binding and validator. *)
Definition create_checks (data : string) (cc : NewAssetReq) : Prop :=
  ParseRequest data = Ok cc /\
  hash_bound (nar_ImmutableContract cc) (nar_ImmutableContractHash cc) /\
  ContractBlock_Validate (ic_Contract (nar_ImmutableContract cc)) = None.

(** [VoidAsset] and [ExpireAsset]: parse, hash binding, schema-version
    cross-check and validator. *)
Definition transition_checks (data : string) (cc : VoidAssetReq) : Prop :=
  ParseRequest data = Ok cc /\
  hash_bound (var_ImmutableContract cc) (var_ImmutableContractHash cc) /\
  schema_version_matches (ic_Contract (var_ImmutableContract cc)) /\
  ContractBlock_Validate (ic_Contract (var_ImmutableContract cc)) = None.

(** The ledgers the service meets: the empty one, and those its operations
    leave. A later transaction finds the world state of the one before,
    with a transaction id, a clock and ledger faults of its own. *)
Inductive reachable : Ctx -> Prop :=
  | reachable_empty ctx :
      ctx_state ctx = ∅ -> reachable ctx
  | reachable_CreateAsset data ctx r ctx' :
      reachable ctx -> CreateAsset data ctx = (r, ctx') -> reachable ctx'
  | reachable_VoidAsset data ctx r ctx' :
      reachable ctx -> VoidAsset data ctx = (r, ctx') -> reachable ctx'
  | reachable_ExpireAsset data ctx r ctx' :
      reachable ctx -> ExpireAsset data ctx = (r, ctx') -> reachable ctx'
  | reachable_next ctx ctx' :
      reachable ctx -> ctx_state ctx' = ctx_state ctx -> reachable ctx'.

(** The current-state legality check of both transitions. *)
Definition not_terminal (s : string) : Prop :=
  s <> ContractStateVoided /\ s <> ContractStateExpired /\
  s <> ContractStateReleased.

(** Every value of the world state decodes to an asset that is stored
    under its own id and is active, voided or expired. *)
Definition ledger_decodes (ctx : Ctx) : Prop :=
  forall key b, ctx_state ctx !! key = Some b ->
    exists asset,
      json_Unmarshal b = Ok asset /\
      Sprint (ContractId asset) = key /\
      (State asset = ContractStateActive \/ State asset = ContractStateVoided \/
       State asset = ContractStateExpired).

(** [later] extends [earlier]: the same asset but for [State] and
    [UpdatedAt], with the changes of [earlier] first. *)
Definition extends (earlier later : Contract) : Prop :=
  ContractId later = ContractId earlier /\
  Version later = Version earlier /\
  ContractHash later = ContractHash earlier /\
  CreatedAt later = CreatedAt earlier /\
  exists more, Changes later = (Changes earlier ++ more)%list.

End Service.

End service.

(** * Sample documents

    Concrete values on which the results below are instantiated. *)

Module sample.
Import contract.

Fixpoint fill (n : nat) (ch : ascii) : string :=
  match n with
  | O => ""
  | S n' => String ch (fill n' ch)
  end.

(** The base64 form of 32 zero bytes. *)
Definition hash44 : string := fill 43 "A" ++ "=".

Definition signature344 : string := fill 344 "S".

Definition participant (userId : string) (roles : list string) : ContractParticipant :=
  {| cp_UserId := userId; cp_Roles := roles; cp_FullName := "";
     cp_CanVoidContract := false; cp_KycLevel := 1 |}.

Definition alice : ContractParticipant := participant "c101" [Signatory].
Definition bob : ContractParticipant := participant "c102" [Signatory].
Definition carol : ContractParticipant := participant "c103" [Creator; Signatory].

Definition key_info : KeyInfo :=
  {| ki_KeyId := "k1"; ki_KeyType := "rsa"; ki_KeySource := "local";
     ki_KeyFingerprint := ""; ki_X509Certificate := "" |}.

Definition signed (userId userName : string) : SignedContractSignature :=
  {| scs_ContractSignaturePackage :=
       {| csp_SignatureId := "s1"; csp_ContractId := 7;
          csp_ContractHash := hash44; csp_UserId := userId;
          csp_UserFullName := userName; csp_DateSigned := 1;
          csp_IpAddress := "10.0.0.1"; csp_SignatureProvider := "Subskribo";
          csp_SignatureType := "advanced"; csp_KeyInfo := key_info;
          csp_IsApprover := false |};
     scs_ContractSignaturePackageHash := hash44;
     scs_Signature := signature344 |}.

Definition options : ContractOptions :=
  {| co_ExpiryDate := None; co_EffectiveDate := None;
     co_VoidableByAuthorPriorToInstantiation := false;
     co_VoidableByAuthor := false; co_VoidableByParticipants := false;
     co_VoidableByNotary := false; co_DaysToSign := 5;
     co_MaxDaysToSign := 10; co_AllowSignatureExtension := false |}.

(** A block that passes [ContractBlock.Validate], with contract id 7 and
    the given schema version against the definition's schema version 1. *)
Definition block (schemaVersion : Z) (ps : list ContractParticipant) : ContractBlock :=
  {| cb_ContractID := 7; cb_SchemaVersion := schemaVersion; cb_Language := "en";
     cb_ContractFamilyId := 2; cb_ContractTypeId := 3;
     cb_ContractTypeVersion := 1; cb_ContractName := "agreement";
     cb_Participants := ps; cb_ContractOptions := options;
     cb_SignatureMethod :=
       {| sm_PackageMethodId := SignPackageMethodId_OriginalContent;
          sm_SignatureType := "advanced"; sm_SignatureProvider := "Subskribo" |};
     cb_StorageYears := 10; cb_ReleaseInstructions := None;
     cb_Definition :=
       {| cd_ContractFamilyId := 2; cd_ContractType := 3;
          cd_ContractTypeVersion := 1; cd_SchemaVersion := 1;
          cd_ContractNameEnglish := "agreement" |};
     cb_DefinitionVersion := 1; cb_SealedOnDate := 1 |}.

Definition document (schemaVersion : Z) (ps : list ContractParticipant)
    (sigs : list SignedContractSignature) : ImmutableContract :=
  {| ic_Contract := block schemaVersion ps; ic_ContractHash := hash44;
     ic_ContractSignatures :=
       {| cs_ContractHash := hash44; cs_HasApprovers := false;
          cs_SealedOnDate := 2; cs_Signatures := sigs |};
     ic_ContractSignaturesHash := hash44; ic_SealedOnDate := 2 |}.

Definition release (instructions : string) : ReleaseInstructionDetail :=
  {| rid_Instructions := instructions; rid_IsCustomRelease := false;
     rid_StandardReleaseTemplateId := 0; rid_NotaryPackage := None;
     rid_AcceptancePackage := None; rid_NotarySignature := "";
     rid_AcceptanceSignature := ""; rid_IsEvidenceRequiredForRelease := false;
     rid_ConsensusMethod := ""; rid_MinVerifiersForConsensus := 0 |}.

End sample.

(** A stand-in for the Go standard library, on which the results on the
    service are instantiated: the digest of everything is 32 zero bytes, a
    request envelope decodes to a fixed request, and an asset is stored as
    the bytes of its state. *)
Module sample_runtime.
Import contract service.

Definition runtime : GoRuntime :=
  {| json_Compact := fun b => Ok b;
     sha256_Sum := fun _ => repeat x00 32;
     sha256_Size := fun _ => eq_refl;
     base64_RawStd_DecodeString := fun s => Ok (list_byte_of_string s) |}.

Definition json_document : JSON ImmutableContract :=
  {| json_Marshal := fun _ => Ok [];
     json_Unmarshal := fun _ => Err "unexpected end of JSON input" |}.

Definition json_request {T} (req : T) : JSON T :=
  {| json_Marshal := fun _ => Ok [];
     json_Unmarshal := fun _ => Ok req |}.

Definition asset_of_state (state : string) : Contract :=
  {| ContractId := 7; Version := 1; ContractHash := sample.hash44;
     CreatedAt := "2024-05-01T10:00:00Z"; UpdatedAt := "2024-05-01T10:00:00Z";
     State := state; Changes := [] |}.

Definition json_asset : JSON Contract :=
  {| json_Marshal := fun c => Ok (list_byte_of_string (State c));
     json_Unmarshal := fun b => Ok (asset_of_state (string_of_list_byte b)) |}.

Definition new_request (schemaVersion : Z) : NewAssetReq :=
  {| nar_ImmutableContract :=
       sample.document schemaVersion [sample.alice]
         [sample.signed "c101" "Alice"];
     nar_ImmutableContractHash := sample.hash44;
     nar_NotaryOU := "" |}.

Definition void_request : VoidAssetReq :=
  {| var_ImmutableContract :=
       sample.document 1 [sample.alice] [sample.signed "c101" "Alice"];
     var_ImmutableContractHash := sample.hash44;
     var_ContractId := 7; var_PackageId := 21;
     var_PackageHash := sample.hash44 |}.

Definition context (state : gmap string (list byte)) : Ctx :=
  {| ctx_state := state; ctx_putLog := []; ctx_txId := "tx-1";
     ctx_getErr := fun _ => None; ctx_putErr := fun _ => None;
     ctx_mspId := Ok "Org1MSP"; ctx_now := "2024-06-01T12:00:00Z" |}.

(** The ledger holding asset 7 in the given state. *)
Definition ledger (state : string) : gmap string (list byte) :=
  {[ "7" := list_byte_of_string state ]}.

End sample_runtime.

(** A second stand-in for [encoding/json] at the asset type, one that
    reads back what it wrote: an asset is written as the binary digits of
    its code as a tuple of countable values. *)
Module sample_codec.
Import contract service.

Definition change_fields : Type := Z * string * string * string * string * string.
Definition contract_fields : Type :=
  Z * Z * string * string * string * string * list change_fields.

Definition fields_of_change (ch : Change) : change_fields :=
  (PackageID ch, PackageHash ch, PackageDate ch, CallerSdn ch, Action ch, NewState ch).

Definition change_of_fields (f : change_fields) : Change :=
  let '(id, hash, date, sdn, action, state) := f in
  {| PackageID := id; PackageHash := hash; PackageDate := date;
     CallerSdn := sdn; Action := action; NewState := state |}.

Definition fields_of_contract (c : Contract) : contract_fields :=
  (ContractId c, Version c, ContractHash c, CreatedAt c, UpdatedAt c, State c,
   List.map fields_of_change (Changes c)).

Definition contract_of_fields (f : contract_fields) : Contract :=
  let '(id, version, hash, created, updated, state, changes) := f in
  {| ContractId := id; Version := version; ContractHash := hash;
     CreatedAt := created; UpdatedAt := updated; State := state;
     Changes := List.map change_of_fields changes |}.

Fixpoint bytes_of_positive (p : positive) : list byte :=
  match p with
  | xH => []
  | xO p' => x30 :: bytes_of_positive p'
  | xI p' => x31 :: bytes_of_positive p'
  end.

Fixpoint positive_of_bytes (b : list byte) : positive :=
  match b with
  | [] => xH
  | x30 :: b' => xO (positive_of_bytes b')
  | _ :: b' => xI (positive_of_bytes b')
  end.

Definition json_asset : JSON Contract :=
  {| json_Marshal := fun c => Ok (bytes_of_positive (encode (fields_of_contract c)));
     json_Unmarshal := fun b =>
       match decode (positive_of_bytes b) with
       | Some f => Ok (contract_of_fields f)
       | None => Err "invalid character"
       end |}.

(** An asset with a contract hash of its own and one change. *)
Definition asset (id : Z) (state : string) : Contract :=
  {| ContractId := id; Version := 1; ContractHash := "stored-hash";
     CreatedAt := "2024-05-01T10:00:00Z"; UpdatedAt := "2024-05-02T10:00:00Z";
     State := state;
     Changes := [ {| PackageID := 3; PackageHash := "p3";
                     PackageDate := "2024-05-02T10:00:00Z"; CallerSdn := "";
                     Action := "note"; NewState := state |} ] |}.

Definition bytes_of_asset (c : Contract) : list byte :=
  bytes_of_positive (encode (fields_of_contract c)).

(** The ledger holding the given asset under its id. *)
Definition ledger (c : Contract) : gmap string (list byte) :=
  {[ Sprint (ContractId c) := bytes_of_asset c ]}.

Definition md5 : GoMD5 :=
  {| md5_Sum := fun _ => repeat xab 16;
     md5_Size := fun _ => eq_refl |}.

End sample_codec.

(** Further requests: to void or expire contract 7 with a document of
    the given schema version under the given claimed hash. *)
Module sample_requests.
Import contract service.

Definition transition_request (schemaVersion : Z) (hash : string) : VoidAssetReq :=
  {| var_ImmutableContract :=
       sample.document schemaVersion [sample.alice] [sample.signed "c101" "Alice"];
     var_ImmutableContractHash := hash;
     var_ContractId := 7; var_PackageId := 21;
     var_PackageHash := sample.hash44 |}.

(** The same for the contract of the given id, with the document of
    contract 7. *)
Definition transition_request_for (id : Z) : VoidAssetReq :=
  {| var_ImmutableContract :=
       sample.document 1 [sample.alice] [sample.signed "c101" "Alice"];
     var_ImmutableContractHash := sample.hash44;
     var_ContractId := id; var_PackageId := 21;
     var_PackageHash := sample.hash44 |}.

End sample_requests.

(** * Results on package [contract] *)

Section ContractFacts.
Import contract.

(** ** Role membership *)

Lemma IsRole_first_role (p : ContractParticipant) (role : string) :
  IsRole (Some p) role = true <->
  role <> "" /\ head (cp_Roles p) = Some role.
Proof.
  unfold IsRole, IsRole_loop.
  destruct (String.eqb_spec role "") as [-> | Hne].
  - split; [discriminate | intros [Hne _]; contradiction].
  - destruct (cp_Roles p) as [| r rs]; simpl.
    + split; [discriminate | intros [_ Hhd]; discriminate].
    + destruct (String.eqb_spec r role) as [-> | Hr].
      * split; auto.
      * split; [discriminate | intros [_ Hhd]; congruence].
Qed.

Lemma IsRole_member (p : ContractParticipant) (role : string) :
  IsRole (Some p) role = true -> In role (cp_Roles p).
Proof.
  intros Hrole. apply IsRole_first_role in Hrole as [_ Hhd].
  destruct (cp_Roles p); simpl in *; [discriminate | left; congruence].
Qed.

(** C2. The claim asks [IsRole] to hold for every member of the role list
    whatever its position. On a participant whose roles are creator and
    signatory, in this order, [IsRole] denies the signatory role, which is
    in the list: the loop returns on the first role. *)
Theorem IsRole_misses_later_role :
  In Signatory (cp_Roles sample.carol) /\
  Signatory <> "" /\
  IsRole (Some sample.carol) Signatory = false /\
  IsRole (Some sample.carol) Creator = true.
Proof.
  repeat split.
  - simpl. right. left. reflexivity.
  - discriminate.
Qed.

(** ** Nil receivers *)

(** C10. On a nil receiver [ValidateSignaturesComplete] returns an error
    whose message names the method, and
    [GetSignatoryCountFromParticipants] returns 0. *)
Theorem nil_receivers_are_guarded :
  (exists msg, ValidateSignaturesComplete None = Some msg /\
               contains "ValidateSignaturesComplete" msg = true) /\
  GetSignatoryCountFromParticipants None = 0.
Proof.
  split; [| reflexivity].
  eexists. split; [reflexivity |]. vm_compute. reflexivity.
Qed.

(** ** Release instructions *)

(** C8, as the claim states it, fails: with instructions shorter than 60
    bytes the first rule answers, and the error is not the one about the
    template id. *)
Lemma ReleaseInstructionDetail_Validate_short_instructions :
  ~ (forall rid evidenceRequired,
       rid_IsCustomRelease rid = false ->
       rid_StandardReleaseTemplateId rid = 0 ->
       ReleaseInstructionDetail_Validate rid evidenceRequired
       = Some "invalid standard release template id").
Proof.
  intros Hall.
  specialize (Hall (sample.release "") false eq_refl eq_refl).
  vm_compute in Hall. discriminate.
Qed.

(** C8, amended. For every release instruction detail whose instructions
    have at least 60 bytes, that is not a custom release and whose standard
    template id is 0, [Validate] returns the error
    "invalid standard release template id". *)
Theorem ReleaseInstructionDetail_Validate_template_id
    (rid : ReleaseInstructionDetail) (evidenceRequired : bool) :
  (InstructionMinLength <= String.length (rid_Instructions rid))%nat ->
  rid_IsCustomRelease rid = false ->
  rid_StandardReleaseTemplateId rid = 0 ->
  ReleaseInstructionDetail_Validate rid evidenceRequired
  = Some "invalid standard release template id".
Proof.
  intros Hlen Hcustom Hid. unfold ReleaseInstructionDetail_Validate.
  destruct (Nat.ltb_spec (String.length (rid_Instructions rid)) InstructionMinLength);
    [lia |].
  rewrite Hcustom, Hid. reflexivity.
Qed.

Lemma ReleaseInstructionDetail_Validate_template_id_witness :
  ReleaseInstructionDetail_Validate (sample.release (sample.fill 60 "i")) true
  = Some "invalid standard release template id".
Proof.
  apply (ReleaseInstructionDetail_Validate_template_id
           (sample.release (sample.fill 60 "i")) true).
  - vm_compute. lia.
  - reflexivity.
  - reflexivity.
Defined.

(** ** Signature completeness *)

Lemma count_signatories_filter (ps : list ContractParticipant) (count : Z) :
  count_signatories ps count
  = count + Z.of_nat (List.length
      (List.filter (fun p => IsRole (Some p) Signatory) ps)).
Proof.
  revert count. induction ps as [| p ps IH]; intros count.
  - simpl. lia.
  - cbn [count_signatories List.filter]. rewrite IH.
    destruct (IsRole (Some p) Signatory); cbn [List.length]; lia.
Qed.

(** A success means as many packages as participants counted as
    signatories, and at least one. *)
Lemma ValidateSignaturesComplete_counts (c : ImmutableContract) :
  ValidateSignaturesComplete (Some c) = None ->
  cs_Signatures (ic_ContractSignatures c) <> [] /\
  Z.of_nat (List.length (cs_Signatures (ic_ContractSignatures c)))
  = GetSignatoryCountFromParticipants (Some (ic_Contract c)).
Proof.
  unfold ValidateSignaturesComplete. intros Hok.
  destruct (negb _); [discriminate |].
  destruct (Z.eqb_spec (Z.of_nat (List.length (cs_Signatures (ic_ContractSignatures c)))) 0)
    as [| Hnz]; [discriminate |].
  destruct (Z.eqb_spec (Z.of_nat (List.length (cs_Signatures (ic_ContractSignatures c))))
              (GetSignatoryCountFromParticipants (Some (ic_Contract c))))
    as [Heq | Hne]; simpl in Hok; [| discriminate].
  split; [| exact Heq].
  intros Hnil. rewrite Hnil in Hnz. simpl in Hnz. lia.
Qed.

(** Once [found] is set it stays set: a participant none of whose packages
    is present passes the inner loop. *)
Lemma signatures_loop_found_stays
    (c : ImmutableContract) (isEmbedded : bool) (p : ContractParticipant)
    (sps : list SignedContractSignature) :
  (forall sp, In sp sps ->
     csp_UserId (scs_ContractSignaturePackage sp) <> cp_UserId p) ->
  signatures_loop c isEmbedded p sps true = Ok true.
Proof.
  induction sps as [| sp sps IH]; intros Hnone; simpl; [reflexivity |].
  unfold signature_step.
  destruct (String.eqb_spec (csp_UserId (scs_ContractSignaturePackage sp)) (cp_UserId p))
    as [Heq | _].
  - exfalso. apply (Hnone sp); [left; reflexivity | exact Heq].
  - simpl. apply IH. intros sp' Hin. apply Hnone. right. exact Hin.
Qed.

(** With [found] unset, the first package decides: if it is another
    user's, the loop fails at once and names the participant, whatever
    the later packages are. *)
Lemma signatures_loop_first_package
    (c : ImmutableContract) (isEmbedded : bool) (p : ContractParticipant)
    (sp : SignedContractSignature) (sps : list SignedContractSignature) :
  csp_UserId (scs_ContractSignaturePackage sp) <> cp_UserId p ->
  signatures_loop c isEmbedded p (sp :: sps) false
  = Err (missing_package_err (cp_UserId p)).
Proof.
  intros Hne. simpl. unfold signature_step.
  destruct (String.eqb_spec (csp_UserId (scs_ContractSignaturePackage sp)) (cp_UserId p));
    [contradiction | reflexivity].
Qed.

(** C1. The claim asks that a success implies a package for every
    signatory, and that an absent package is reported with its signatory's
    user id. With signatories c101 and c102 and two packages, of c101 and of
    n48, there are as many packages as signatories and c102 has none, yet
    the check succeeds. *)
Theorem ValidateSignaturesComplete_accepts_absent_signatory :
  let sigs := [sample.signed "c101" "Alice"; sample.signed "n48" "Nora"] in
  let c := sample.document 1 [sample.alice; sample.bob] sigs in
  In Signatory (cp_Roles sample.bob) /\
  GetSignatoryCountFromParticipants (Some (ic_Contract c)) = 2 /\
  List.length (cs_Signatures (ic_ContractSignatures c)) = 2%nat /\
  (forall sp, In sp (cs_Signatures (ic_ContractSignatures c)) ->
     csp_UserId (scs_ContractSignaturePackage sp) <> cp_UserId sample.bob) /\
  ValidateSignaturesComplete (Some c) = None.
Proof.
  cbv zeta. repeat split.
  - simpl. left. reflexivity.
  - intros sp [<- | [<- | []]]; simpl; discriminate.
Qed.

(** The same slip rejects a complete set of packages that is in another
    order than the participants, and names a signatory whose package is
    there. *)
Lemma ValidateSignaturesComplete_order_matters :
  let c := sample.document 1 [sample.alice; sample.bob]
             [sample.signed "c102" "Bob"; sample.signed "c101" "Alice"] in
  ValidateSignaturesComplete (Some c) = Some (missing_package_err "c101").
Proof. vm_compute. reflexivity. Qed.

(** In the order of the participants the complete set passes. *)
Lemma ValidateSignaturesComplete_complete :
  let c := sample.document 1 [sample.alice; sample.bob]
             [sample.signed "c101" "Alice"; sample.signed "c102" "Bob"] in
  ValidateSignaturesComplete (Some c) = None.
Proof. vm_compute. reflexivity. Qed.

End ContractFacts.

(** * Results on package [service] *)

(** ** The digest *)

Section Base64.

Lemma EncodeToString_length (src : list byte) :
  String.length (base64.EncodeToString src)
  = (4 * ((List.length src + 2) / 3))%nat.
Proof.
  remember (List.length src) as n eqn:Hn. revert src Hn.
  induction n as [n IH] using lt_wf_ind. intros src Hn.
  destruct src as [| b0 [| b1 [| b2 rest]]]; subst n; try reflexivity.
  cbn [base64.EncodeToString String.length List.length].
  rewrite (IH (List.length rest)); [| simpl; lia | reflexivity].
  replace (S (S (S (List.length rest))) + 2)%nat
    with (List.length rest + 2 + 1 * 3)%nat by lia.
  rewrite Nat.div_add by lia. lia.
Qed.

(** The test vectors of RFC 4648. *)
Example EncodeToString_rfc4648 :
  base64.EncodeToString (list_byte_of_string "f") = "Zg==" /\
  base64.EncodeToString (list_byte_of_string "fo") = "Zm8=" /\
  base64.EncodeToString (list_byte_of_string "foo") = "Zm9v" /\
  base64.EncodeToString (list_byte_of_string "foob") = "Zm9vYg==" /\
  base64.EncodeToString (list_byte_of_string "fooba") = "Zm9vYmE=" /\
  base64.EncodeToString (list_byte_of_string "foobar") = "Zm9vYmFy".
Proof. repeat split. Qed.

Lemma EncodeToString_digest_length (digest : list byte) :
  List.length digest = 32%nat ->
  String.length (base64.EncodeToString digest) = 44%nat.
Proof. intros Hlen. rewrite EncodeToString_length, Hlen. reflexivity. Qed.

End Base64.

Section Digest.
Import service.
Context `{GoRuntime} {T : Type} `{JSON T}.

Lemma JsonHashS256_length (data : option T) (h : string) :
  JsonHashS256 data = Ok h -> String.length h = 44%nat.
Proof.
  unfold JsonHashS256. destruct data as [d |]; [| discriminate].
  destruct (json_Marshal d) as [bytesData | e]; simpl; [| discriminate].
  destruct (json_Compact bytesData) as [bb | e]; simpl; [| discriminate].
  intros [= <-]. apply EncodeToString_digest_length, sha256_Size.
Qed.

(** C7. On the nil interface [JsonHashS256] returns an error. On a value
    that serializes it returns the padded base64 form of the SHA-256 digest
    of the compacted serialization, which has 44 characters, and any two
    calls on the value give the same string. *)
Theorem JsonHashS256_spec :
  JsonHashS256 (T := T) None = Err "data is nil" /\
  forall (d : T) (bytesData bb : list byte),
    json_Marshal d = Ok bytesData ->
    json_Compact bytesData = Ok bb ->
    JsonHashS256 (Some d) = Ok (base64.EncodeToString (sha256_Sum bb)) /\
    String.length (base64.EncodeToString (sha256_Sum bb)) = 44%nat /\
    forall r1 r2, JsonHashS256 (Some d) = r1 -> JsonHashS256 (Some d) = r2 -> r1 = r2.
Proof.
  split; [reflexivity |].
  intros d bytesData bb Hmarshal Hcompact.
  assert (Hdigest : JsonHashS256 (Some d) = Ok (base64.EncodeToString (sha256_Sum bb))).
  { unfold JsonHashS256. rewrite Hmarshal. simpl. rewrite Hcompact. reflexivity. }
  split; [exact Hdigest |]. split.
  - apply (JsonHashS256_length (Some d)), Hdigest.
  - intros r1 r2 <- <-. reflexivity.
Qed.

End Digest.

Lemma JsonHashS256_spec_witness :
  let rt := sample_runtime.runtime in
  let js := sample_runtime.json_document in
  let d := sample.document 1 [sample.alice] [sample.signed "c101" "Alice"] in
  @service.JsonHashS256 rt _ js None = Err "data is nil" /\
  @service.JsonHashS256 rt _ js (Some d) = Ok sample.hash44 /\
  String.length sample.hash44 = 44%nat.
Proof.
  cbv zeta.
  destruct (@JsonHashS256_spec sample_runtime.runtime _ sample_runtime.json_document)
    as [Hnil Hsome].
  split; [exact Hnil |].
  destruct (Hsome (sample.document 1 [sample.alice] [sample.signed "c101" "Alice"])
              [] [] eq_refl eq_refl) as (Hdigest & Hlen & _).
  split; [exact Hdigest | exact Hlen].
Defined.

(** ** The ledger operations *)

Section Lifecycle.
Import contract service.
Context `{GoRuntime}.
Context `{JSON ImmutableContract} `{JSON Contract}
        `{JSON NewAssetReq} `{JSON VoidAssetReq}.

Lemma bind_inv {A B} (m : M A) (k : A -> M B) (ctx ctx2 : Ctx) (r : result B) :
  bind m k ctx = (r, ctx2) ->
  (exists a ctx1, m ctx = (Ok a, ctx1) /\ k a ctx1 = (r, ctx2)) \/
  (exists e, m ctx = (Err e, ctx2) /\ r = Err e).
Proof.
  unfold bind. destruct (m ctx) as [[a | e] ctx1]; intros Hrun.
  - left. eauto.
  - right. injection Hrun as <- <-. eauto.
Qed.

Lemma lift_inv {A} (r r' : result A) (ctx ctx' : Ctx) :
  lift r ctx = (r', ctx') -> r = r' /\ ctx' = ctx.
Proof. unfold lift. intros [= <- <-]. auto. Qed.

Lemma check_inv (e : error) (r : result unit) (ctx ctx' : Ctx) :
  check e ctx = (r, ctx') ->
  ctx' = ctx /\ (e = None /\ r = Ok tt \/ exists msg, e = Some msg /\ r = Err msg).
Proof.
  unfold check. destruct e as [msg |]; intros [= <- <-]; split; eauto.
Qed.

Lemma PutState_inv (key : string) (value : list byte) (r : result unit) (ctx ctx' : Ctx) :
  PutState key value ctx = (r, ctx') ->
  (ctx_putErr ctx key = None /\ r = Ok tt /\ ctx' = written ctx key value) \/
  (exists e, ctx_putErr ctx key = Some e /\ r = Err e /\ ctx' = ctx).
Proof.
  unfold PutState. destruct (ctx_putErr ctx key) as [e |]; intros [= <- <-]; eauto.
Qed.

Lemma GetMSPID_inv (pre : string) (r : result string) (ctx ctx' : Ctx) :
  wrap_err pre GetMSPID ctx = (r, ctx') ->
  ctx' = ctx /\ is_ok r = is_ok (ctx_mspId ctx).
Proof.
  unfold wrap_err, GetMSPID. destruct (ctx_mspId ctx); intros [= <- <-]; auto.
Qed.

(** *** Reading *)

Lemma ReadAsset_pure (id : string) (ctx ctx' : Ctx) (r : result Contract) :
  ReadAsset id ctx = (r, ctx') -> ctx' = ctx.
Proof.
  unfold ReadAsset, bind, wrap_err, GetState, fail, lift.
  destruct (ctx_getErr ctx id); [intros [= _ <-]; reflexivity |].
  destruct (ctx_state ctx !! id); intros [= _ <-]; reflexivity.
Qed.

Lemma ReadAsset_stored (id : string) (ctx : Ctx) (asset : Contract) :
  ctx_getErr ctx id = None ->
  stored_asset ctx id asset ->
  ReadAsset id ctx = (Ok asset, ctx).
Proof.
  intros Hget (b & Hlookup & Hdecode).
  unfold ReadAsset, bind, wrap_err, GetState, lift.
  rewrite Hget, Hlookup, Hdecode. reflexivity.
Qed.

Lemma ReadAsset_ok (id : string) (ctx ctx' : Ctx) (asset : Contract) :
  ReadAsset id ctx = (Ok asset, ctx') ->
  ctx' = ctx /\ ctx_getErr ctx id = None /\ stored_asset ctx id asset.
Proof.
  intros Hread. split; [eapply ReadAsset_pure; eassumption |].
  revert Hread. unfold ReadAsset, bind, wrap_err, GetState, fail, lift, stored_asset.
  destruct (ctx_getErr ctx id); [discriminate |].
  destruct (ctx_state ctx !! id) as [b |]; [| discriminate].
  intros [= Hdecode _]. eauto.
Qed.

Lemma AssetExists_inv (id : string) (ctx ctx' : Ctx) (r : result bool) :
  AssetExists id ctx = (r, ctx') ->
  ctx' = ctx /\
  (ctx_getErr ctx id = None /\
   r = Ok (match ctx_state ctx !! id with Some _ => true | None => false end) \/
   exists e, r = Err e).
Proof.
  unfold AssetExists, bind, wrap_err, GetState, ret.
  destruct (ctx_getErr ctx id); intros [= <- <-]; split; eauto.
Qed.

(** Steps through a run [Hrun : m ctx = (r, ctx')], one for each kind of
    statement: the statement either ends the run with an error, which
    closes the goal, or the run goes on. *)
Ltac run_bind Hrun x Hx :=
  apply bind_inv in Hrun as [(x & ?c1 & Hx & Hrun) | (?e & Hx & ->)].

Ltac run_lift Hrun x Hx :=
  run_bind Hrun x Hx;
  [apply lift_inv in Hx as [Hx ->] | apply lift_inv in Hx as [_ ->]; eauto].

Ltac run_check Hrun Hx :=
  let u := fresh "u" in
  run_bind Hrun u Hx;
  [apply check_inv in Hx as [-> [[Hx _] | (?msg & _ & [=])]]
  | apply check_inv in Hx as [-> _]; eauto].

Ltac run_guard Hrun Hc :=
  match type of Hrun with
  | (if ?b then _ else _) _ = _ =>
      destruct b eqn:Hc; [injection Hrun as <- <-; eauto |]
  end.

Ltac run_read Hrun asset Hget Hstored :=
  run_bind Hrun asset Hstored;
  [apply ReadAsset_ok in Hstored as (-> & Hget & Hstored)
  | apply ReadAsset_pure in Hstored as ->; eauto].

Ltac run_now Hrun :=
  let t := fresh "t" in
  let Hnow := fresh "Hnow" in
  apply bind_inv in Hrun as [(t & ?c1 & Hnow & Hrun) | (?e & [=] & _)];
  injection Hnow as <- <-.

Ltac run_put Hrun Hx :=
  let u := fresh "u" in
  run_bind Hrun u Hx;
  [apply PutState_inv in Hx as [(Hx & _ & ->) | (?e' & _ & [=] & _)]
  | apply PutState_inv in Hx as [(_ & [=] & _) | (?e' & _ & _ & ->)]; eauto].

(** *** Every run of [VoidAsset] *)

Lemma VoidAsset_inv (data : string) (ctx ctx' : Ctx) (r : result VoidResponse) :
  VoidAsset data ctx = (r, ctx') ->
  (exists e, r = Err e /\ ctx' = ctx) \/
  (exists cc asset contractJSON,
     transition_checks data cc /\
     is_ok (ctx_mspId ctx) = true /\
     ctx_getErr ctx (Sprint (var_ContractId cc)) = None /\
     stored_asset ctx (Sprint (var_ContractId cc)) asset /\
     not_terminal (State asset) /\
     json_Marshal (transition asset cc (ctx_now ctx) ContractStateVoided "void")
       = Ok contractJSON /\
     ctx_putErr ctx (Sprint (ContractId asset)) = None /\
     r = Ok {| vr_TxId := ctx_txId ctx |} /\
     ctx' = written ctx (Sprint (ContractId asset)) contractJSON).
Proof.
  unfold VoidAsset. intros Hrun.
  run_lift Hrun cc Hparse.
  run_lift Hrun icHash Hhash.
  run_guard Hrun Hbound. apply negb_false_iff, String.eqb_eq in Hbound as ->.
  run_guard Hrun Hschema. apply negb_false_iff, Z.eqb_eq in Hschema.
  run_check Hrun Hvalid.
  run_bind Hrun org Hmsp; [| apply GetMSPID_inv in Hmsp as [-> _]; eauto].
  apply GetMSPID_inv in Hmsp as [-> Hmsp]. cbn [is_ok] in Hmsp. symmetry in Hmsp.
  run_read Hrun asset Hget Hstored.
  run_guard Hrun Hvoided. run_guard Hrun Hexpired. run_guard Hrun Hreleased.
  apply String.eqb_neq in Hvoided, Hexpired, Hreleased.
  run_now Hrun.
  run_lift Hrun contractJSON Hmarshal.
  run_put Hrun Hput.
  injection Hrun as <- <-.
  right. exists cc, asset, contractJSON.
  unfold transition_checks, hash_bound, schema_version_matches, not_terminal.
  repeat split; assumption.
Qed.

(** [VoidAsset] on a request that passes the checks on its document, with
    the peer's MSP id and the asset readable. *)
Lemma VoidAsset_run (data : string) (cc : VoidAssetReq) (ctx : Ctx) (asset : Contract) :
  transition_checks data cc ->
  is_ok (ctx_mspId ctx) = true ->
  ctx_getErr ctx (Sprint (var_ContractId cc)) = None ->
  stored_asset ctx (Sprint (var_ContractId cc)) asset ->
  VoidAsset data ctx =
    if String.eqb (State asset) ContractStateVoided then
      (Err "contract already voided", ctx)
    else if String.eqb (State asset) ContractStateExpired then
      (Err "contract expired, cannot void", ctx)
    else if String.eqb (State asset) ContractStateReleased then
      (Err "contract released, cannot void", ctx)
    else
      match json_Marshal (transition asset cc (ctx_now ctx) ContractStateVoided "void") with
      | Err e => (Err e, ctx)
      | Ok contractJSON =>
          match ctx_putErr ctx (Sprint (ContractId asset)) with
          | Some e => (Err e, ctx)
          | None => (Ok {| vr_TxId := ctx_txId ctx |},
                     written ctx (Sprint (ContractId asset)) contractJSON)
          end
      end.
Proof.
  intros (Hparse & Hhash & Hschema & Hvalid) Hmsp Hget Hstored.
  unfold hash_bound, schema_version_matches in *.
  unfold VoidAsset, bind at 1, lift at 1. rewrite Hparse.
  unfold bind at 1, lift at 1. rewrite Hhash.
  rewrite String.eqb_refl. cbn [negb].
  rewrite Hschema, Z.eqb_refl. cbn [negb].
  unfold bind at 1, check. rewrite Hvalid.
  unfold bind at 1, wrap_err, GetMSPID.
  destruct (ctx_mspId ctx) as [org | e]; [| discriminate].
  unfold bind at 1. rewrite (ReadAsset_stored _ _ _ Hget Hstored).
  destruct (String.eqb (State asset) ContractStateVoided); [reflexivity |].
  destruct (String.eqb (State asset) ContractStateExpired); [reflexivity |].
  destruct (String.eqb (State asset) ContractStateReleased); [reflexivity |].
  unfold bind, Now, lift, PutState, GetTxID, ret.
  destruct (json_Marshal _) as [contractJSON | e]; [| reflexivity].
  cbn [ContractId transition].
  destruct (ctx_putErr ctx (Sprint (ContractId asset))); reflexivity.
Qed.

(** *** Every run of [ExpireAsset] *)

Lemma ExpireAsset_inv (data : string) (ctx ctx' : Ctx) (r : result ExpireResponse) :
  ExpireAsset data ctx = (r, ctx') ->
  (exists e, r = Err e /\ ctx' = ctx) \/
  (exists cc asset contractJSON,
     transition_checks data cc /\
     ctx_getErr ctx (Sprint (var_ContractId cc)) = None /\
     stored_asset ctx (Sprint (var_ContractId cc)) asset /\
     not_terminal (State asset) /\
     json_Marshal (transition asset cc (ctx_now ctx) ContractStateExpired "expire")
       = Ok contractJSON /\
     ctx_putErr ctx (Sprint (var_ContractId cc)) = None /\
     r = Ok {| er_TxId := ctx_txId ctx |} /\
     ctx' = written ctx (Sprint (var_ContractId cc)) contractJSON).
Proof.
  unfold ExpireAsset. intros Hrun.
  run_lift Hrun cc Hparse.
  run_lift Hrun icHash Hhash.
  run_guard Hrun Hbound. apply negb_false_iff, String.eqb_eq in Hbound as ->.
  run_guard Hrun Hschema. apply negb_false_iff, Z.eqb_eq in Hschema.
  run_check Hrun Hvalid.
  run_read Hrun asset Hget Hstored.
  run_guard Hrun Hvoided. run_guard Hrun Hexpired. run_guard Hrun Hreleased.
  apply String.eqb_neq in Hvoided, Hexpired, Hreleased.
  run_now Hrun.
  run_lift Hrun contractJSON Hmarshal.
  run_put Hrun Hput.
  injection Hrun as <- <-.
  right. exists cc, asset, contractJSON.
  unfold transition_checks, hash_bound, schema_version_matches, not_terminal.
  repeat split; assumption.
Qed.

Lemma ExpireAsset_run (data : string) (cc : VoidAssetReq) (ctx : Ctx) (asset : Contract) :
  transition_checks data cc ->
  ctx_getErr ctx (Sprint (var_ContractId cc)) = None ->
  stored_asset ctx (Sprint (var_ContractId cc)) asset ->
  ExpireAsset data ctx =
    if String.eqb (State asset) ContractStateVoided then
      (Err "contract voided, cannot expire", ctx)
    else if String.eqb (State asset) ContractStateExpired then
      (Err "contract already expired", ctx)
    else if String.eqb (State asset) ContractStateReleased then
      (Err "contract released, cannot expire", ctx)
    else
      match json_Marshal (transition asset cc (ctx_now ctx) ContractStateExpired "expire") with
      | Err e => (Err e, ctx)
      | Ok contractJSON =>
          match ctx_putErr ctx (Sprint (var_ContractId cc)) with
          | Some e => (Err e, ctx)
          | None => (Ok {| er_TxId := ctx_txId ctx |},
                     written ctx (Sprint (var_ContractId cc)) contractJSON)
          end
      end.
Proof.
  intros (Hparse & Hhash & Hschema & Hvalid) Hget Hstored.
  unfold hash_bound, schema_version_matches in *.
  unfold ExpireAsset, bind at 1, lift at 1. rewrite Hparse.
  unfold bind at 1, lift at 1. rewrite Hhash.
  rewrite String.eqb_refl. cbn [negb].
  rewrite Hschema, Z.eqb_refl. cbn [negb].
  unfold bind at 1, check. rewrite Hvalid.
  unfold bind at 1. rewrite (ReadAsset_stored _ _ _ Hget Hstored).
  destruct (String.eqb (State asset) ContractStateVoided); [reflexivity |].
  destruct (String.eqb (State asset) ContractStateExpired); [reflexivity |].
  destruct (String.eqb (State asset) ContractStateReleased); [reflexivity |].
  unfold bind, Now, lift, PutState, GetTxID, ret.
  destruct (json_Marshal _) as [contractJSON | e]; [| reflexivity].
  destruct (ctx_putErr ctx (Sprint (var_ContractId cc))); reflexivity.
Qed.

(** *** Every run of [CreateAsset] *)

Lemma CreateAsset_inv (data : string) (ctx ctx' : Ctx) (r : result CreateAssetResponse) :
  CreateAsset data ctx = (r, ctx') ->
  (exists e, r = Err e /\ ctx' = ctx) \/
  (exists cc contractJSON,
     let contract := new_contract cc (ctx_now ctx) in
     let key := Sprint (ContractId contract) in
     create_checks data cc /\
     ctx_getErr ctx key = None /\
     ctx_state ctx !! key = None /\
     json_Marshal contract = Ok contractJSON /\
     ctx_putErr ctx key = None /\
     r = Ok {| car_ContractId := ContractId contract; car_TxId := ctx_txId ctx |} /\
     ctx' = written ctx key contractJSON).
Proof.
  unfold CreateAsset. intros Hrun.
  run_lift Hrun cc Hparse.
  run_lift Hrun icHash Hhash.
  run_guard Hrun Hbound. apply negb_false_iff, String.eqb_eq in Hbound as ->.
  run_check Hrun Hvalid.
  run_now Hrun. cbv zeta in Hrun.
  run_bind Hrun exists_ Hexists; [| apply AssetExists_inv in Hexists as [-> _]; eauto].
  apply AssetExists_inv in Hexists as [-> [[Hget [= ->]] | (e & [=])]].
  destruct (ctx_state ctx !! _) as [b |] eqn:Hfree;
    [injection Hrun as <- <-; eauto |].
  run_lift Hrun contractJSON Hmarshal.
  run_put Hrun Hput.
  injection Hrun as <- <-.
  right. exists cc, contractJSON. cbv zeta.
  unfold create_checks, hash_bound.
  repeat split; assumption.
Qed.

Lemma CreateAsset_run (data : string) (cc : NewAssetReq) (ctx : Ctx) :
  let contract := new_contract cc (ctx_now ctx) in
  let key := Sprint (ContractId contract) in
  create_checks data cc ->
  ctx_getErr ctx key = None ->
  CreateAsset data ctx =
    match ctx_state ctx !! key with
    | Some _ =>
        (Err ("the contract " ++ Sprint (ContractId contract) ++ " already exists"), ctx)
    | None =>
        match json_Marshal contract with
        | Err e => (Err e, ctx)
        | Ok contractJSON =>
            match ctx_putErr ctx key with
            | Some e => (Err e, ctx)
            | None =>
                (Ok {| car_ContractId := ContractId contract;
                       car_TxId := ctx_txId ctx |},
                 written ctx key contractJSON)
            end
        end
    end.
Proof.
  intros contract key (Hparse & Hhash & Hvalid) Hget.
  unfold hash_bound in Hhash.
  unfold CreateAsset, bind at 1, lift at 1. rewrite Hparse.
  unfold bind at 1, lift at 1. rewrite Hhash.
  rewrite String.eqb_refl. cbn [negb].
  unfold bind at 1, check. rewrite Hvalid.
  unfold bind at 1, Now. cbv zeta. fold contract. fold key.
  unfold bind at 1, AssetExists, bind at 1, wrap_err, GetState, ret.
  rewrite Hget.
  destruct (ctx_state ctx !! key); [reflexivity |].
  unfold bind, lift, PutState, GetTxID.
  destruct (json_Marshal contract) as [contractJSON | e]; [| reflexivity].
  destruct (ctx_putErr ctx key); reflexivity.
Qed.

(** *** The lifecycle state machine *)

(** C3. On a request that passes the hash, schema-version and validator
    checks, with the ledger answering, [VoidAsset] on a stored asset
    succeeds exactly when the asset is active; from voided, expired and
    released it fails with the three messages; on success the asset is
    written back voided, with [UpdatedAt] set to the time of the operation
    and one change of action "void" and new state voided appended. *)
Theorem VoidAsset_legal_only_from_active
    (data : string) (cc : VoidAssetReq) (ctx : Ctx) (asset : Contract)
    (contractJSON : list byte) :
  let key := Sprint (var_ContractId cc) in
  let voided := transition asset cc (ctx_now ctx) ContractStateVoided "void" in
  transition_checks data cc ->
  is_ok (ctx_mspId ctx) = true ->
  ctx_getErr ctx key = None ->
  ctx_putErr ctx key = None ->
  json_Marshal voided = Ok contractJSON ->
  ledger_wf ctx ->
  stored_asset ctx key asset ->
  (State asset = ContractStateActive <->
   exists resp ctx', VoidAsset data ctx = (Ok resp, ctx')) /\
  (State asset = ContractStateVoided ->
   VoidAsset data ctx = (Err "contract already voided", ctx)) /\
  (State asset = ContractStateExpired ->
   VoidAsset data ctx = (Err "contract expired, cannot void", ctx)) /\
  (State asset = ContractStateReleased ->
   VoidAsset data ctx = (Err "contract released, cannot void", ctx)) /\
  (State asset = ContractStateActive ->
   VoidAsset data ctx
   = (Ok {| vr_TxId := ctx_txId ctx |}, written ctx key contractJSON) /\
   State voided = ContractStateVoided /\
   UpdatedAt voided = ctx_now ctx /\
   exists change,
     Changes voided = (Changes asset ++ [change])%list /\
     Action change = "void" /\ NewState change = ContractStateVoided).
Proof.
  intros key voided Hchecks Hmsp Hget Hput Hmarshal Hwf Hstored.
  destruct (Hwf key asset Hstored) as [Hkey Hstate].
  pose proof (VoidAsset_run data cc ctx asset Hchecks Hmsp Hget Hstored) as Hrun.
  fold voided in Hrun. rewrite Hmarshal, Hkey, Hput in Hrun.
  assert (Hactive : State asset = ContractStateActive ->
            VoidAsset data ctx
            = (Ok {| vr_TxId := ctx_txId ctx |}, written ctx key contractJSON)).
  { intros Hs. rewrite Hrun, Hs. reflexivity. }
  assert (Hvoided : State asset = ContractStateVoided ->
            VoidAsset data ctx = (Err "contract already voided", ctx)).
  { intros Hs. rewrite Hrun, Hs. reflexivity. }
  assert (Hexpired : State asset = ContractStateExpired ->
            VoidAsset data ctx = (Err "contract expired, cannot void", ctx)).
  { intros Hs. rewrite Hrun, Hs. reflexivity. }
  assert (Hreleased : State asset = ContractStateReleased ->
            VoidAsset data ctx = (Err "contract released, cannot void", ctx)).
  { intros Hs. rewrite Hrun, Hs. reflexivity. }
  repeat split; try assumption.
  - intros Hs. eauto.
  - intros (resp & ctx' & Hok).
    destruct Hstate as [Hs | [Hs | [Hs | Hs]]]; [exact Hs | | |].
    + rewrite (Hvoided Hs) in Hok. discriminate.
    + rewrite (Hexpired Hs) in Hok. discriminate.
    + rewrite (Hreleased Hs) in Hok. discriminate.
  - apply Hactive. assumption.
  - eexists. repeat split.
Qed.

(** [ExpireAsset] against the four states, in the same way. *)
Lemma ExpireAsset_legal_only_from_active
    (data : string) (cc : VoidAssetReq) (ctx : Ctx) (asset : Contract)
    (contractJSON : list byte) :
  let key := Sprint (var_ContractId cc) in
  transition_checks data cc ->
  ctx_getErr ctx key = None ->
  ctx_putErr ctx key = None ->
  json_Marshal (transition asset cc (ctx_now ctx) ContractStateExpired "expire")
    = Ok contractJSON ->
  stored_asset ctx key asset ->
  (State asset = ContractStateActive ->
   ExpireAsset data ctx
   = (Ok {| er_TxId := ctx_txId ctx |}, written ctx key contractJSON)) /\
  (State asset = ContractStateVoided ->
   ExpireAsset data ctx = (Err "contract voided, cannot expire", ctx)) /\
  (State asset = ContractStateExpired ->
   ExpireAsset data ctx = (Err "contract already expired", ctx)) /\
  (State asset = ContractStateReleased ->
   ExpireAsset data ctx = (Err "contract released, cannot expire", ctx)).
Proof.
  intros key Hchecks Hget Hput Hmarshal Hstored.
  pose proof (ExpireAsset_run data cc ctx asset Hchecks Hget Hstored) as Hrun.
  fold key in Hrun. rewrite Hmarshal, Hput in Hrun.
  repeat split; intros Hs; rewrite Hrun, Hs; reflexivity.
Qed.

(** *** Frame of the transitions *)

(** C9. A successful [VoidAsset] or [ExpireAsset] writes back, under the key
    it read, the asset it read with the same [ContractId], [Version],
    [ContractHash] and [CreatedAt], and with the changes it had followed by
    one new change. No other key of the ledger is touched. *)
Theorem transitions_frame (data : string) (ctx ctx' : Ctx) :
  ledger_wf ctx ->
  (exists resp, VoidAsset data ctx = (Ok resp, ctx')) \/
  (exists resp, ExpireAsset data ctx = (Ok resp, ctx')) ->
  exists cc old new change contractJSON,
    ParseRequest data = Ok cc /\
    stored_asset ctx (Sprint (var_ContractId cc)) old /\
    json_Marshal new = Ok contractJSON /\
    ctx_state ctx' = <[Sprint (var_ContractId cc) := contractJSON]> (ctx_state ctx) /\
    ctx_putLog ctx' = (ctx_putLog ctx ++ [(Sprint (var_ContractId cc), contractJSON)])%list /\
    Changes new = (Changes old ++ [change])%list /\
    ContractId new = ContractId old /\
    Version new = Version old /\
    ContractHash new = ContractHash old /\
    CreatedAt new = CreatedAt old.
Proof.
  intros Hwf [[resp Hrun] | [resp Hrun]].
  - apply VoidAsset_inv in Hrun
      as [(e & [=] & _) | (cc & asset & contractJSON & Hchecks & _ & _ & Hstored
                            & _ & Hmarshal & _ & _ & ->)].
    destruct (Hwf _ _ Hstored) as [Hkey _]. rewrite Hkey.
    exists cc, asset, (transition asset cc (ctx_now ctx) ContractStateVoided "void").
    eexists. exists contractJSON.
    destruct Hchecks as (Hparse & _).
    repeat split; try assumption; reflexivity.
  - apply ExpireAsset_inv in Hrun
      as [(e & [=] & _) | (cc & asset & contractJSON & Hchecks & _ & Hstored
                            & _ & Hmarshal & _ & _ & ->)].
    exists cc, asset, (transition asset cc (ctx_now ctx) ContractStateExpired "expire").
    eexists. exists contractJSON.
    destruct Hchecks as (Hparse & _).
    repeat split; try assumption; reflexivity.
Qed.

(** *** Creation *)

(** C6. On a request whose document has the supplied hash as its digest
    and passes the validator, with the ledger answering: if no asset is
    stored under the string form of the document's contract id,
    [CreateAsset] stores there a new asset that is active, has no changes,
    the block's schema version as [Version], the supplied hash as
    [ContractHash] and equal [CreatedAt] and [UpdatedAt]; if one is stored,
    [CreateAsset] fails with the already-exists error. *)
Theorem CreateAsset_spec (data : string) (cc : NewAssetReq) (ctx : Ctx) :
  let block := ic_Contract (nar_ImmutableContract cc) in
  let asset := new_contract cc (ctx_now ctx) in
  let key := Sprint (cb_ContractID block) in
  create_checks data cc ->
  ctx_getErr ctx key = None ->
  (ctx_state ctx !! key = None ->
   forall contractJSON,
     json_Marshal asset = Ok contractJSON ->
     ctx_putErr ctx key = None ->
     CreateAsset data ctx
     = (Ok {| car_ContractId := cb_ContractID block; car_TxId := ctx_txId ctx |},
        written ctx key contractJSON) /\
     ctx_state (written ctx key contractJSON) !! key = Some contractJSON /\
     ContractId asset = cb_ContractID block /\
     State asset = "active" /\
     Changes asset = [] /\
     Version asset = cb_SchemaVersion block /\
     ContractHash asset = nar_ImmutableContractHash cc /\
     CreatedAt asset = UpdatedAt asset) /\
  (is_Some (ctx_state ctx !! key) ->
   CreateAsset data ctx
   = (Err ("the contract " ++ Sprint (cb_ContractID block) ++ " already exists"), ctx)).
Proof.
  intros block asset key Hchecks Hget.
  pose proof (CreateAsset_run data cc ctx Hchecks Hget) as Hrun.
  cbv zeta in Hrun. change (ContractId (new_contract cc (ctx_now ctx)))
    with (cb_ContractID block) in Hrun.
  fold key asset in Hrun. split.
  - intros Hfree contractJSON Hmarshal Hput.
    rewrite Hfree, Hmarshal, Hput in Hrun.
    repeat split; try reflexivity; [exact Hrun |].
    cbn [written ctx_state]. apply lookup_insert_eq.
  - intros [b Hb]. rewrite Hb in Hrun. exact Hrun.
Qed.

(** *** The schema-version cross-check *)

Lemma VoidAsset_schema_gate (data : string) (cc : VoidAssetReq) (ctx : Ctx) :
  ParseRequest data = Ok cc ->
  hash_bound (var_ImmutableContract cc) (var_ImmutableContractHash cc) ->
  ~ schema_version_matches (ic_Contract (var_ImmutableContract cc)) ->
  VoidAsset data ctx
  = (Err "contract schema version does not match with definition", ctx).
Proof.
  unfold hash_bound, schema_version_matches. intros Hparse Hhash Hschema.
  unfold VoidAsset, bind at 1, lift at 1. rewrite Hparse.
  unfold bind at 1, lift at 1. rewrite Hhash.
  rewrite String.eqb_refl. cbn [negb].
  destruct (Z.eqb_spec (cb_SchemaVersion (ic_Contract (var_ImmutableContract cc)))
              (cd_SchemaVersion (cb_Definition (ic_Contract (var_ImmutableContract cc)))));
    [contradiction | reflexivity].
Qed.

Lemma ExpireAsset_schema_gate (data : string) (cc : VoidAssetReq) (ctx : Ctx) :
  ParseRequest data = Ok cc ->
  hash_bound (var_ImmutableContract cc) (var_ImmutableContractHash cc) ->
  ~ schema_version_matches (ic_Contract (var_ImmutableContract cc)) ->
  ExpireAsset data ctx
  = (Err "contract schema version does not match with definition", ctx).
Proof.
  unfold hash_bound, schema_version_matches. intros Hparse Hhash Hschema.
  unfold ExpireAsset, bind at 1, lift at 1. rewrite Hparse.
  unfold bind at 1, lift at 1. rewrite Hhash.
  rewrite String.eqb_refl. cbn [negb].
  destruct (Z.eqb_spec (cb_SchemaVersion (ic_Contract (var_ImmutableContract cc)))
              (cd_SchemaVersion (cb_Definition (ic_Contract (var_ImmutableContract cc)))));
    [contradiction | reflexivity].
Qed.

(** C5. The claim asks that [CreateAsset], like the transitions, fails
    with the schema-version error when the block's schema version differs
    from its definition's. [CreateAsset] makes no such check: on a request
    with differing versions that is otherwise in order it succeeds and
    stores the asset. *)
Theorem CreateAsset_ignores_schema_version
    (data : string) (cc : NewAssetReq) (ctx : Ctx) (contractJSON : list byte) :
  let block := ic_Contract (nar_ImmutableContract cc) in
  let key := Sprint (cb_ContractID block) in
  ~ schema_version_matches block ->
  create_checks data cc ->
  ctx_getErr ctx key = None ->
  ctx_state ctx !! key = None ->
  json_Marshal (new_contract cc (ctx_now ctx)) = Ok contractJSON ->
  ctx_putErr ctx key = None ->
  exists resp ctx',
    CreateAsset data ctx = (Ok resp, ctx') /\
    ctx_state ctx' !! key = Some contractJSON.
Proof.
  intros block key _ Hchecks Hget Hfree Hmarshal Hput.
  pose proof (CreateAsset_run data cc ctx Hchecks Hget) as Hrun.
  cbv zeta in Hrun. change (ContractId (new_contract cc (ctx_now ctx)))
    with (cb_ContractID block) in Hrun.
  fold key in Hrun. rewrite Hfree, Hmarshal, Hput in Hrun.
  eexists. eexists. split; [exact Hrun |].
  cbn [written ctx_state]. apply lookup_insert_eq.
Qed.

(** *** No write before the last check *)

Lemma CreateAsset_error_no_write (data : string) (ctx ctx' : Ctx) (e : string) :
  CreateAsset data ctx = (Err e, ctx') -> ctx' = ctx.
Proof.
  intros Hrun. apply CreateAsset_inv in Hrun
    as [(e' & _ & ->) | (cc & j & _ & _ & _ & _ & _ & [=] & _)].
  reflexivity.
Qed.

Lemma VoidAsset_error_no_write (data : string) (ctx ctx' : Ctx) (e : string) :
  VoidAsset data ctx = (Err e, ctx') -> ctx' = ctx.
Proof.
  intros Hrun. apply VoidAsset_inv in Hrun
    as [(e' & _ & ->) | (cc & a & j & _ & _ & _ & _ & _ & _ & _ & [=] & _)].
  reflexivity.
Qed.

Lemma ExpireAsset_error_no_write (data : string) (ctx ctx' : Ctx) (e : string) :
  ExpireAsset data ctx = (Err e, ctx') -> ctx' = ctx.
Proof.
  intros Hrun. apply ExpireAsset_inv in Hrun
    as [(e' & _ & ->) | (cc & a & j & _ & _ & _ & _ & _ & _ & [=] & _)].
  reflexivity.
Qed.

(** A success made exactly one [PutState], after the checks the operation
    makes had all passed. *)
Lemma CreateAsset_ok_one_write (data : string) (ctx ctx' : Ctx) (resp : CreateAssetResponse) :
  CreateAsset data ctx = (Ok resp, ctx') ->
  exists cc key contractJSON,
    create_checks data cc /\
    ctx_state ctx !! key = None /\
    ctx_putLog ctx' = (ctx_putLog ctx ++ [(key, contractJSON)])%list.
Proof.
  intros Hrun. apply CreateAsset_inv in Hrun
    as [(e' & [=] & _) | (cc & j & Hchecks & _ & Hfree & _ & _ & _ & ->)].
  exists cc. eexists. exists j. repeat split; try apply Hchecks. exact Hfree.
Qed.

Lemma VoidAsset_ok_one_write (data : string) (ctx ctx' : Ctx) (resp : VoidResponse) :
  VoidAsset data ctx = (Ok resp, ctx') ->
  exists cc asset key contractJSON,
    transition_checks data cc /\
    stored_asset ctx (Sprint (var_ContractId cc)) asset /\
    not_terminal (State asset) /\
    ctx_putLog ctx' = (ctx_putLog ctx ++ [(key, contractJSON)])%list.
Proof.
  intros Hrun. apply VoidAsset_inv in Hrun
    as [(e' & [=] & _) | (cc & a & j & Hchecks & _ & _ & Hstored & Hstate & _ & _ & _ & ->)].
  exists cc, a. eexists. exists j. repeat split; try apply Hchecks; try apply Hstate.
  exact Hstored.
Qed.

Lemma ExpireAsset_ok_one_write (data : string) (ctx ctx' : Ctx) (resp : ExpireResponse) :
  ExpireAsset data ctx = (Ok resp, ctx') ->
  exists cc asset key contractJSON,
    transition_checks data cc /\
    stored_asset ctx (Sprint (var_ContractId cc)) asset /\
    not_terminal (State asset) /\
    ctx_putLog ctx' = (ctx_putLog ctx ++ [(key, contractJSON)])%list.
Proof.
  intros Hrun. apply ExpireAsset_inv in Hrun
    as [(e' & [=] & _) | (cc & a & j & Hchecks & _ & Hstored & Hstate & _ & _ & _ & ->)].
  exists cc, a. eexists. exists j. repeat split; try apply Hchecks; try apply Hstate.
  exact Hstored.
Qed.

(** C4. The claim lists the schema-version cross-check among the checks
    whose failure keeps [CreateAsset] from writing. On a request whose
    block and definition differ in schema version, and that is otherwise in
    order, [CreateAsset] returns no error and makes a [PutState]. *)
Theorem CreateAsset_writes_despite_schema_mismatch
    (data : string) (cc : NewAssetReq) (ctx : Ctx) (contractJSON : list byte) :
  let block := ic_Contract (nar_ImmutableContract cc) in
  let key := Sprint (cb_ContractID block) in
  cb_SchemaVersion block <> cd_SchemaVersion (cb_Definition block) ->
  create_checks data cc ->
  ctx_getErr ctx key = None ->
  ctx_state ctx !! key = None ->
  json_Marshal (new_contract cc (ctx_now ctx)) = Ok contractJSON ->
  ctx_putErr ctx key = None ->
  is_ok (fst (CreateAsset data ctx)) = true /\
  ctx_putLog (snd (CreateAsset data ctx))
  = (ctx_putLog ctx ++ [(key, contractJSON)])%list.
Proof.
  intros block key _ Hchecks Hget Hfree Hmarshal Hput.
  pose proof (CreateAsset_run data cc ctx Hchecks Hget) as Hrun.
  cbv zeta in Hrun. change (ContractId (new_contract cc (ctx_now ctx)))
    with (cb_ContractID block) in Hrun.
  fold key in Hrun. rewrite Hfree, Hmarshal, Hput in Hrun.
  rewrite Hrun. split; reflexivity.
Qed.

(** *** Ledgers written by the service keep their shape *)

Section Roundtrip.
(** [json.Unmarshal] reads back what [json.Marshal] wrote of an asset. *)
Hypothesis json_roundtrip :
  forall (c : Contract) (b : list byte),
    json_Marshal c = Ok b -> json_Unmarshal b = Ok c.

Lemma stored_asset_written (ctx : Ctx) (key : string) (c : Contract) (b : list byte) :
  json_Marshal c = Ok b -> stored_asset (written ctx key b) key c.
Proof.
  intros Hmarshal. exists b. split; [| auto].
  cbn [written ctx_state]. apply lookup_insert_eq.
Qed.

Lemma ledger_wf_written (ctx : Ctx) (key : string) (c : Contract) (b : list byte) :
  ledger_wf ctx ->
  json_Marshal c = Ok b ->
  Sprint (ContractId c) = key ->
  lifecycle_state (State c) ->
  ledger_wf (written ctx key b).
Proof.
  intros Hwf Hmarshal Hkey Hstate key' asset (b' & Hlookup & Hdecode).
  cbn [written ctx_state] in Hlookup.
  destruct (decide (key = key')) as [<- | Hne].
  - rewrite lookup_insert_eq in Hlookup. injection Hlookup as <-.
    rewrite (json_roundtrip _ _ Hmarshal) in Hdecode. injection Hdecode as <-.
    auto.
  - rewrite lookup_insert_ne in Hlookup by exact Hne.
    apply Hwf. exists b'. auto.
Qed.

Lemma ledger_wf_empty (ctx : Ctx) : ctx_state ctx = ∅ -> ledger_wf ctx.
Proof.
  intros Hempty key asset (b & Hlookup & _).
  rewrite Hempty, lookup_empty in Hlookup. discriminate.
Qed.

Lemma CreateAsset_keeps_wf (data : string) (ctx ctx' : Ctx) r :
  ledger_wf ctx -> CreateAsset data ctx = (r, ctx') -> ledger_wf ctx'.
Proof.
  intros Hwf Hrun. apply CreateAsset_inv in Hrun
    as [(e & _ & ->) | (cc & j & _ & _ & _ & Hmarshal & _ & _ & ->)]; [exact Hwf |].
  eapply ledger_wf_written; eauto. left. reflexivity.
Qed.

Lemma VoidAsset_keeps_wf (data : string) (ctx ctx' : Ctx) r :
  ledger_wf ctx -> VoidAsset data ctx = (r, ctx') -> ledger_wf ctx'.
Proof.
  intros Hwf Hrun. apply VoidAsset_inv in Hrun
    as [(e & _ & ->) | (cc & a & j & _ & _ & _ & _ & _ & Hmarshal & _ & _ & ->)];
    [exact Hwf |].
  eapply ledger_wf_written; eauto. right. left. reflexivity.
Qed.

Lemma ExpireAsset_keeps_wf (data : string) (ctx ctx' : Ctx) r :
  ledger_wf ctx -> ExpireAsset data ctx = (r, ctx') -> ledger_wf ctx'.
Proof.
  intros Hwf Hrun. apply ExpireAsset_inv in Hrun
    as [(e & _ & ->) | (cc & a & j & _ & _ & Hstored & _ & Hmarshal & _ & _ & ->)];
    [exact Hwf |].
  destruct (Hwf _ _ Hstored) as [Hkey _].
  eapply ledger_wf_written; eauto. right. right. left. reflexivity.
Qed.

Lemma CreateAsset_stored (data : string) (ctx ctx' : Ctx) (resp : CreateAssetResponse) :
  CreateAsset data ctx = (Ok resp, ctx') ->
  exists cc,
    ParseRequest data = Ok cc /\
    stored_asset ctx' (Sprint (car_ContractId resp)) (new_contract cc (ctx_now ctx)).
Proof.
  intros Hrun. apply CreateAsset_inv in Hrun
    as [(e & [=] & _) | (cc & j & Hchecks & _ & _ & Hmarshal & _ & [= ->] & ->)].
  exists cc. split; [apply Hchecks |].
  apply stored_asset_written, Hmarshal.
Qed.

Lemma ledger_wf_state (ctx ctx' : Ctx) :
  ctx_state ctx' = ctx_state ctx -> ledger_wf ctx -> ledger_wf ctx'.
Proof.
  intros Hstate Hwf key asset (b & Hlookup & Hdecode).
  apply Hwf. exists b. rewrite <- Hstate. auto.
Qed.

(** Every asset of a ledger the service meets is stored under its own id
    and is in a lifecycle state. *)
Lemma reachable_ledger_wf (ctx : Ctx) : reachable ctx -> ledger_wf ctx.
Proof.
  induction 1 as [ctx Hempty
                 | data ctx r ctx' _ IH Hrun
                 | data ctx r ctx' _ IH Hrun
                 | data ctx r ctx' _ IH Hrun
                 | ctx ctx' _ IH Hstate].
  - apply ledger_wf_empty, Hempty.
  - eapply CreateAsset_keeps_wf; eassumption.
  - eapply VoidAsset_keeps_wf; eassumption.
  - eapply ExpireAsset_keeps_wf; eassumption.
  - eapply ledger_wf_state; eassumption.
Qed.

(** After a successful [VoidAsset] the asset reads back voided, and a
    second [VoidAsset] with the request fails. *)
Lemma VoidAsset_twice (data : string) (ctx ctx' : Ctx) (resp : VoidResponse) :
  ledger_wf ctx ->
  VoidAsset data ctx = (Ok resp, ctx') ->
  VoidAsset data ctx' = (Err "contract already voided", ctx').
Proof.
  intros Hwf Hrun. apply VoidAsset_inv in Hrun
    as [(e & [=] & _) | (cc & a & j & Hchecks & Hmsp & Hget & Hstored & _
                          & Hmarshal & _ & _ & ->)].
  destruct (Hwf _ _ Hstored) as [Hkey _]. rewrite Hkey.
  rewrite (VoidAsset_run data cc _
             (transition a cc (ctx_now ctx) ContractStateVoided "void")
             Hchecks); try assumption.
  - reflexivity.
  - apply stored_asset_written. exact Hmarshal.
Qed.

End Roundtrip.

End Lifecycle.

(** ** The results on the ledger operations, on the sample runtime *)

Section Witnesses.
Import contract service sample_runtime.

Lemma sample_ledger_wf (state : string) :
  lifecycle_state state ->
  @ledger_wf json_asset (context (ledger state)).
Proof.
  intros Hstate key asset (b & Hlookup & Hdecode).
  unfold context, ledger in Hlookup. cbn [ctx_state] in Hlookup.
  apply lookup_singleton_Some in Hlookup as [<- <-].
  injection Hdecode as <-. cbn [asset_of_state ContractId State].
  rewrite string_of_list_byte_of_string. split; [reflexivity | exact Hstate].
Qed.

Lemma sample_stored (state : string) :
  @stored_asset json_asset (context (ledger state)) "7" (asset_of_state state).
Proof.
  exists (list_byte_of_string state). split.
  - unfold context, ledger. cbn [ctx_state]. apply lookup_singleton_eq.
  - cbn. rewrite string_of_list_byte_of_string. reflexivity.
Qed.

Lemma sample_transition_checks :
  @transition_checks runtime json_document (json_request void_request)
    "void-7" void_request.
Proof. repeat split. Qed.

Lemma sample_create_checks (schemaVersion : Z) :
  @create_checks runtime json_document (json_request (new_request schemaVersion))
    "new-7" (new_request schemaVersion).
Proof. repeat split. Qed.

Lemma VoidAsset_legal_only_from_active_witness :
  let ctx := context (ledger "active") in
  @VoidAsset runtime json_document json_asset (json_request void_request) "void-7" ctx
  = (Ok {| vr_TxId := "tx-1" |}, written ctx "7" (list_byte_of_string "voided")).
Proof.
  cbv zeta.
  pose proof (@VoidAsset_legal_only_from_active
                runtime json_document json_asset (json_request void_request)
                "void-7" void_request (context (ledger "active"))
                (asset_of_state "active") (list_byte_of_string "voided")
                sample_transition_checks eq_refl eq_refl eq_refl eq_refl
                (sample_ledger_wf "active" (or_introl eq_refl))
                (sample_stored "active"))
    as (_ & _ & _ & _ & Hactive).
  exact (proj1 (Hactive eq_refl)).
Defined.

Lemma transitions_frame_witness :
  let ctx := context (ledger "active") in
  exists old new change,
    @stored_asset json_asset ctx "7" old /\
    Changes new = (Changes old ++ [change])%list /\
    ContractId new = ContractId old /\ Version new = Version old /\
    ContractHash new = ContractHash old /\ CreatedAt new = CreatedAt old.
Proof.
  cbv zeta.
  destruct (@transitions_frame
              runtime json_document json_asset (json_request void_request)
              "void-7" (context (ledger "active"))
              (written (context (ledger "active")) "7" (list_byte_of_string "voided"))
              (sample_ledger_wf "active" (or_introl eq_refl))
              (or_introl (ex_intro _ {| vr_TxId := "tx-1" |} eq_refl)))
    as (cc & old & new & change & j & Hparse & Hstored & _ & _ & _ & Hframe).
  injection Hparse as <-.
  exists old, new, change. split; [exact Hstored | exact Hframe].
Defined.

Lemma CreateAsset_spec_witness :
  @CreateAsset runtime json_document json_asset (json_request (new_request 1))
    "new-7" (context ∅)
  = (Ok {| car_ContractId := 7; car_TxId := "tx-1" |},
     written (context ∅) "7" (list_byte_of_string "active")) /\
  @CreateAsset runtime json_document json_asset (json_request (new_request 1))
    "new-7" (context (ledger "active"))
  = (Err "the contract 7 already exists", context (ledger "active")).
Proof.
  split.
  - destruct (@CreateAsset_spec
                runtime json_document json_asset (json_request (new_request 1))
                "new-7" (new_request 1) (context ∅)
                (sample_create_checks 1) eq_refl) as [Hfree _].
    exact (proj1 (Hfree eq_refl (list_byte_of_string "active") eq_refl eq_refl)).
  - destruct (@CreateAsset_spec
                runtime json_document json_asset (json_request (new_request 1))
                "new-7" (new_request 1) (context (ledger "active"))
                (sample_create_checks 1) eq_refl) as [_ Htaken].
    apply Htaken. eexists. unfold context, ledger. cbn [ctx_state].
    apply lookup_singleton_eq.
Defined.

Lemma CreateAsset_ignores_schema_version_witness :
  exists resp ctx',
    @CreateAsset runtime json_document json_asset (json_request (new_request 2))
      "new-7" (context ∅) = (Ok resp, ctx') /\
    ctx_state ctx' !! "7" = Some (list_byte_of_string "active").
Proof.
  apply (@CreateAsset_ignores_schema_version
           runtime json_document json_asset (json_request (new_request 2))
           "new-7" (new_request 2) (context ∅) (list_byte_of_string "active")).
  - unfold schema_version_matches. cbn. lia.
  - apply sample_create_checks.
  - reflexivity.
  - reflexivity.
  - reflexivity.
  - reflexivity.
Defined.

Lemma CreateAsset_writes_despite_schema_mismatch_witness :
  let run := @CreateAsset runtime json_document json_asset
               (json_request (new_request 2)) "new-7" (context ∅) in
  is_ok (fst run) = true /\
  ctx_putLog (snd run) = [("7", list_byte_of_string "active")].
Proof.
  cbv zeta.
  apply (@CreateAsset_writes_despite_schema_mismatch
           runtime json_document json_asset (json_request (new_request 2))
           "new-7" (new_request 2) (context ∅) (list_byte_of_string "active")).
  - cbn. lia.
  - apply sample_create_checks.
  - reflexivity.
  - reflexivity.
  - reflexivity.
  - reflexivity.
Defined.

End Witnesses.

(** * What the validators accept *)

Section Validators.
Import contract.

Lemma eqb_empty_false (s : string) : String.eqb s "" = false <-> s <> "".
Proof. apply String.eqb_neq. Qed.

(** X1. [ContractBlock.Validate] accepts a block exactly when its family
    and type ids are those of its definition, its type version is not 0,
    its storage years are between 1 and 30 and, when an expiry date is set,
    the expiry is not before the sealing date, the days to sign are at
    least 1 and, if the signature extension is allowed, so are the maximal
    days to sign. *)
Theorem ContractBlock_Validate_accepts (cb : ContractBlock) :
  ContractBlock_Validate cb = None <->
  cb_ContractFamilyId cb = cd_ContractFamilyId (cb_Definition cb) /\
  cb_ContractTypeId cb = cd_ContractType (cb_Definition cb) /\
  cb_ContractTypeVersion cb <> 0 /\
  1 <= cb_StorageYears cb <= 30 /\
  forall expiry,
    co_ExpiryDate (cb_ContractOptions cb) = Some expiry ->
    cb_SealedOnDate cb <= expiry /\
    1 <= co_DaysToSign (cb_ContractOptions cb) /\
    (co_AllowSignatureExtension (cb_ContractOptions cb) = true ->
     1 <= co_MaxDaysToSign (cb_ContractOptions cb)).
Proof.
  unfold ContractBlock_Validate, Before. cbv zeta.
  destruct (Z.eqb_spec (cb_ContractFamilyId cb) (cd_ContractFamilyId (cb_Definition cb)));
    cbn [negb]; [| split; [discriminate | tauto]].
  destruct (Z.eqb_spec (cb_ContractTypeId cb) (cd_ContractType (cb_Definition cb)));
    cbn [negb]; [| split; [discriminate | tauto]].
  destruct (Z.eqb_spec (cb_ContractTypeVersion cb) 0);
    [split; [discriminate | tauto] |].
  destruct (Z.ltb_spec (cb_StorageYears cb) 1); cbn [orb];
    [split; [discriminate | lia] |].
  destruct (Z.gtb_spec (cb_StorageYears cb) 30);
    [split; [discriminate | lia] |].
  split.
  - intros Hvalid. refine (conj _ (conj _ (conj _ (conj _ _)))); try assumption; [lia |].
    intros expiry Hexpiry. rewrite Hexpiry in Hvalid.
    destruct (Z.ltb_spec expiry (cb_SealedOnDate cb)); [discriminate |].
    destruct (Z.ltb_spec (co_DaysToSign (cb_ContractOptions cb)) 1); [discriminate |].
    refine (conj _ (conj _ _)); [lia | lia |].
    intros Hallow. rewrite Hallow in Hvalid. cbn [andb] in Hvalid.
    destruct (Z.ltb_spec (co_MaxDaysToSign (cb_ContractOptions cb)) 1);
      [discriminate | lia].
  - intros (_ & _ & _ & _ & Hexpiry).
    destruct (co_ExpiryDate (cb_ContractOptions cb)) as [expiry |]; [| reflexivity].
    destruct (Hexpiry expiry eq_refl) as (Hsealed & Hdays & Hmax).
    destruct (Z.ltb_spec expiry (cb_SealedOnDate cb)); [lia |].
    destruct (Z.ltb_spec (co_DaysToSign (cb_ContractOptions cb)) 1); [lia |].
    destruct (co_AllowSignatureExtension (cb_ContractOptions cb)); [| reflexivity].
    specialize (Hmax eq_refl). cbn [andb].
    destruct (Z.ltb_spec (co_MaxDaysToSign (cb_ContractOptions cb)) 1);
      [lia | reflexivity].
Qed.

(** X2. [SignatureMethod.Validate] accepts exactly the advanced and the
    qualified signature type, the package methods 1, 2 and 3, and the
    providers Subskribo and Connective. *)
Theorem SignatureMethod_Validate_accepts (sm : SignatureMethod) :
  SignatureMethod_Validate sm = None <->
  (sm_SignatureType sm = "advanced" \/ sm_SignatureType sm = "qualified") /\
  (sm_PackageMethodId sm = 1 \/ sm_PackageMethodId sm = 2 \/ sm_PackageMethodId sm = 3) /\
  (sm_SignatureProvider sm = "Subskribo" \/ sm_SignatureProvider sm = "Connective").
Proof.
  unfold SignatureMethod_Validate.
  destruct (String.eqb_spec (sm_SignatureType sm) "") as [Hempty | _].
  { split; [discriminate |]. rewrite Hempty. intros ([[=] | [=]] & _). }
  destruct (String.eqb_spec (sm_SignatureType sm) "advanced");
  destruct (String.eqb_spec (sm_SignatureType sm) "qualified"); cbn [negb andb];
  destruct (Z.eqb_spec (sm_PackageMethodId sm) 1);
  destruct (Z.eqb_spec (sm_PackageMethodId sm) 2);
  destruct (Z.eqb_spec (sm_PackageMethodId sm) 3); cbn [negb andb];
  destruct (String.eqb_spec (sm_SignatureProvider sm) "Subskribo");
  destruct (String.eqb_spec (sm_SignatureProvider sm) "Connective"); cbn [negb andb];
  (split; [try discriminate; intros _; tauto | try reflexivity; tauto]).
Qed.

(** [KeyInfo.Validate] accepts a key exactly when it carries an X509
    certificate or its id, type and source are all set. *)
Lemma KeyInfo_Validate_accepts (k : KeyInfo) :
  KeyInfo_Validate k = None <->
  ki_X509Certificate k <> "" \/
  (ki_KeyId k <> "" /\ ki_KeyType k <> "" /\ ki_KeySource k <> "").
Proof.
  unfold KeyInfo_Validate.
  destruct (String.eqb_spec (ki_X509Certificate k) ""); [| tauto].
  destruct (String.eqb_spec (ki_KeyId k) ""); [split; [discriminate | tauto] |].
  destruct (String.eqb_spec (ki_KeyType k) ""); [split; [discriminate | tauto] |].
  destruct (String.eqb_spec (ki_KeySource k) ""); [split; [discriminate | tauto] |].
  tauto.
Qed.


(** X4. [ReleaseInstructionDetail.Validate] accepts exactly: instructions
    of at least 60 bytes and, for a standard release, a template id of at
    least 1; for a custom release with a notary package, a notary signature
    and, unless the notary's approval state is "none", an acceptance
    package and an acceptance signature; for a custom release without
    notary package, a consensus method and, if evidence is required, the
    evidence flag. *)
Theorem ReleaseInstructionDetail_Validate_accepts
    (rid : ReleaseInstructionDetail) (evidenceRequired : bool) :
  ReleaseInstructionDetail_Validate rid evidenceRequired = None <->
  (60 <= String.length (rid_Instructions rid))%nat /\
  (rid_IsCustomRelease rid = false -> 1 <= rid_StandardReleaseTemplateId rid) /\
  (rid_IsCustomRelease rid = true ->
   forall np, rid_NotaryPackage rid = Some np ->
     rid_NotarySignature rid <> "" /\
     (nip_ApprovalState np <> "none" ->
      rid_AcceptancePackage rid <> None /\ rid_AcceptanceSignature rid <> "")) /\
  (rid_IsCustomRelease rid = true ->
   rid_NotaryPackage rid = None ->
     rid_ConsensusMethod rid <> "" /\
     (evidenceRequired = true -> rid_IsEvidenceRequiredForRelease rid = true)).
Proof.
  unfold ReleaseInstructionDetail_Validate, InstructionMinLength.
  destruct (Nat.ltb_spec (String.length (rid_Instructions rid)) 60);
    [split; [discriminate | lia] |].
  destruct (rid_IsCustomRelease rid); cbn [negb].
  - destruct (rid_NotaryPackage rid) as [np |].
    + destruct (String.eqb_spec (rid_NotarySignature rid) "") as [Hsig | Hsig].
      { split; [discriminate |]. intros (_ & _ & Hnotary & _).
        destruct (Hnotary eq_refl np eq_refl) as [Hne _]. contradiction. }
      destruct (String.eqb_spec (nip_ApprovalState np) "none") as [Hstate | Hstate];
        cbn [negb].
      { split; [| reflexivity]. intros _.
        refine (conj _ (conj _ (conj _ _))); try assumption; try discriminate.
        intros _ np' [= <-]. split; [assumption | contradiction]. }
      destruct (rid_AcceptancePackage rid) as [ap |].
      2: { split; [discriminate |]. intros (_ & _ & Hnotary & _).
           destruct (Hnotary eq_refl np eq_refl) as [_ Hacc].
           destruct (Hacc Hstate) as [Hne _]. contradiction. }
      destruct (String.eqb_spec (rid_AcceptanceSignature rid) "") as [Hacc | Hacc].
      { split; [discriminate |]. intros (_ & _ & Hnotary & _).
        destruct (Hnotary eq_refl np eq_refl) as [_ Hacc'].
        destruct (Hacc' Hstate) as [_ Hne]. contradiction. }
      split; [| reflexivity]. intros _.
      refine (conj _ (conj _ (conj _ _))); try assumption; try discriminate.
      intros _ np' [= <-]. split; [assumption |]. intros _. split; [discriminate | assumption].
    + destruct (String.eqb_spec (rid_ConsensusMethod rid) "") as [Hcm | Hcm].
      { split; [discriminate |]. intros (_ & _ & _ & Hverif).
        destruct (Hverif eq_refl eq_refl) as [Hne _]. contradiction. }
      assert (Hrest : forall flag : Prop, flag ->
                (60 <= String.length (rid_Instructions rid))%nat /\
                (true = false -> 1 <= rid_StandardReleaseTemplateId rid) /\
                (true = true -> forall np, @None NotaryInstructPackage = Some np ->
                   rid_NotarySignature rid <> "" /\
                   (nip_ApprovalState np <> "none" ->
                    rid_AcceptancePackage rid <> None /\
                    rid_AcceptanceSignature rid <> "")) /\
                (true = true -> @None NotaryInstructPackage = None ->
                   rid_ConsensusMethod rid <> "" /\ flag)).
      { intros flag Hflag.
        refine (conj _ (conj _ (conj _ _)));
          [assumption | discriminate | intros _ np [=] | auto]. }
      destruct evidenceRequired, (rid_IsEvidenceRequiredForRelease rid) eqn:Hflag;
        cbn [negb andb].
      * split; [intros _; apply Hrest; auto | reflexivity].
      * split; [discriminate |]. intros (_ & _ & _ & Hverif).
        destruct (Hverif eq_refl eq_refl) as [_ Hset]. specialize (Hset eq_refl).
        discriminate.
      * split; [intros _; apply Hrest; auto | reflexivity].
      * split; [intros _; apply Hrest; discriminate | reflexivity].
  - destruct (Z.ltb_spec (rid_StandardReleaseTemplateId rid) 1).
    + split; [discriminate |]. intros (_ & Hid & _). specialize (Hid eq_refl). lia.
    + split; [| reflexivity]. intros _.
      refine (conj _ (conj _ (conj _ _))); try assumption; try discriminate.
      intros _. assumption.
Qed.

(** X5. The embedded package method exempts a signature package from
    the checks on the signature id, the IP address, the signature provider
    and the key: under any other method the package is accepted exactly
    when it is accepted as embedded and passes those four, and a package
    rejected as embedded is rejected with the same error under every
    method. *)
Theorem ContractSignaturePackage_Validate_embedded
    (sp : ContractSignaturePackage) (signatureMethodId : Z) :
  signatureMethodId <> 3 ->
  (ContractSignaturePackage_Validate sp signatureMethodId = None <->
   ContractSignaturePackage_Validate sp 3 = None /\
   csp_SignatureId sp <> "" /\ csp_IpAddress sp <> "" /\
   csp_SignatureProvider sp <> "" /\
   KeyInfo_Validate (csp_KeyInfo sp) = None) /\
  (forall e, ContractSignaturePackage_Validate sp 3 = Some e ->
             ContractSignaturePackage_Validate sp signatureMethodId = Some e).
Proof.
  intros Hmethod. unfold ContractSignaturePackage_Validate.
  destruct (Z.eqb_spec signatureMethodId 3) as [| _]; [contradiction |].
  cbn [Z.eqb Pos.eqb negb].
  destruct (csp_ContractId sp <? 1); [split; [split; [discriminate | intros [[=] _]] | auto] |].
  destruct (String.eqb_spec (csp_ContractHash sp) "");
    [split; [split; [discriminate | intros [[=] _]] | auto] |].
  destruct (String.eqb (csp_UserId sp) "");
    [split; [split; [discriminate | intros [[=] _]] | auto] |].
  destruct (String.eqb (csp_UserFullName sp) "");
    [split; [split; [discriminate | intros [[=] _]] | auto] |].
  destruct (IsZero (csp_DateSigned sp));
    [split; [split; [discriminate | intros [[=] _]] | auto] |].
  destruct (String.eqb (csp_SignatureType sp) "");
    [split; [split; [discriminate | intros [[=] _]] | auto] |].
  split; [| discriminate].
  destruct (String.eqb_spec (csp_SignatureId sp) ""); [split; [discriminate | tauto] |].
  destruct (String.eqb_spec (csp_IpAddress sp) ""); [split; [discriminate | tauto] |].
  destruct (String.eqb_spec (csp_SignatureProvider sp) ""); [split; [discriminate | tauto] |].
  destruct (KeyInfo_Validate (csp_KeyInfo sp));
    [split; [discriminate | intros (_ & _ & _ & _ & [=])] |].
  tauto.
Qed.

(** X6. [UserRoleDefinition] returns the first entry of the user roles
    that has the role asked for, and nil exactly when no entry has it. *)
Theorem UserRoleDefinition_first
    (userRoles : list ContractUserRoleDefinition) (role : string) :
  (forall ur, UserRoleDefinition userRoles role = Some ur <->
     exists before after,
       userRoles = (before ++ ur :: after)%list /\
       urd_Role ur = role /\
       forall u, In u before -> urd_Role u <> role) /\
  (UserRoleDefinition userRoles role = None <->
     forall u, In u userRoles -> urd_Role u <> role).
Proof.
  induction userRoles as [| u0 rest [IHsome IHnone]]; cbn [UserRoleDefinition].
  - split.
    + intros ur. split; [discriminate |].
      intros (before & after & Heq & _). destruct before; discriminate.
    + split; [intros _ u [] | reflexivity].
  - destruct (String.eqb_spec (urd_Role u0) role) as [Hrole | Hrole].
    + split.
      * intros ur. split.
        -- intros [= <-]. exists [], rest. repeat split; [assumption | intros u []].
        -- intros (before & after & Heq & Hur & Hbefore).
           destruct before as [| b before]; cbn in Heq; injection Heq as <- _.
           ++ reflexivity.
           ++ exfalso. apply (Hbefore u0); [left; reflexivity | assumption].
      * split; [discriminate |]. intros Hnone. exfalso.
        apply (Hnone u0); [left; reflexivity | assumption].
    + split.
      * intros ur. rewrite IHsome. split.
        -- intros (before & after & -> & Hur & Hbefore).
           exists (u0 :: before), after. repeat split; [assumption |].
           intros u [<- | Hin]; [assumption | auto].
        -- intros (before & after & Heq & Hur & Hbefore).
           destruct before as [| b before]; cbn in Heq; injection Heq as <- Heq.
           ++ contradiction.
           ++ exists before, after. repeat split; [assumption.. |].
              intros u Hin. apply Hbefore. right. assumption.
      * rewrite IHnone. split.
        -- intros Hnone u [<- | Hin]; [assumption | auto].
        -- intros Hnone u Hin. apply Hnone. right. assumption.
Qed.

End Validators.

(** * What the signature-completeness check accepts *)

Section SignatureCompleteness.
Import contract.

Lemma signature_step_found c isEmbedded p sp b :
  signature_step c isEmbedded p sp true = Ok b <->
  b = true /\
  (csp_UserId (scs_ContractSignaturePackage sp) = cp_UserId p ->
   check_matching_package c isEmbedded sp = None).
Proof.
  unfold signature_step.
  destruct (String.eqb_spec (csp_UserId (scs_ContractSignaturePackage sp)) (cp_UserId p))
    as [Heq | Hne]; cbn [rbind negb].
  - destruct (check_matching_package c isEmbedded sp) as [e |]; cbn [rbind negb].
    + split; [discriminate | intros [_ Hpass]; specialize (Hpass Heq); discriminate].
    + split; [intros [= <-]; auto | intros [-> _]; reflexivity].
  - split; [intros [= <-]; split; [reflexivity | contradiction]
           | intros [-> _]; reflexivity].
Qed.

Lemma signatures_loop_found c isEmbedded p sps b :
  signatures_loop c isEmbedded p sps true = Ok b <->
  b = true /\ packages_pass c isEmbedded sps p.
Proof.
  unfold packages_pass. revert b.
  induction sps as [| sp sps IH]; intros b; cbn [signatures_loop].
  - split; [intros [= <-]; split; [reflexivity | intros sp []]
           | intros [-> _]; reflexivity].
  - destruct (signature_step c isEmbedded p sp true) as [b1 | e] eqn:Hstep;
      cbn [rbind].
    + apply signature_step_found in Hstep as [-> Hsp]. rewrite IH. split.
      * intros [-> Hrest]. split; [reflexivity |].
        intros sp' [<- | Hin]; auto.
      * intros [-> Hall]. split; [reflexivity |].
        intros sp' Hin. apply Hall. right. assumption.
    + split; [discriminate |]. intros [_ Hall].
      assert (Hok : signature_step c isEmbedded p sp true = Ok true).
      { apply signature_step_found. split; [reflexivity |].
        apply Hall. left. reflexivity. }
      rewrite Hok in Hstep. discriminate.
Qed.

(** With [found] unset the first package has to be the participant's. *)
Lemma signatures_loop_unfound c isEmbedded p sp sps b :
  signatures_loop c isEmbedded p (sp :: sps) false = Ok b <->
  b = true /\
  csp_UserId (scs_ContractSignaturePackage sp) = cp_UserId p /\
  packages_pass c isEmbedded (sp :: sps) p.
Proof.
  cbn [signatures_loop]. unfold signature_step at 1.
  destruct (String.eqb_spec (csp_UserId (scs_ContractSignaturePackage sp)) (cp_UserId p))
    as [Heq | Hne]; cbn [rbind negb].
  - destruct (check_matching_package c isEmbedded sp) as [e |] eqn:Hcheck;
      cbn [rbind negb].
    + split; [discriminate |]. intros (_ & _ & Hall).
      rewrite (Hall sp) in Hcheck; [discriminate | left; reflexivity | assumption].
    + rewrite signatures_loop_found. split.
      * intros [-> Hrest]. repeat split; [assumption |].
        intros sp' [<- | Hin] Hid; [assumption | apply Hrest; assumption].
      * intros (-> & _ & Hall). split; [reflexivity |].
        intros sp' Hin. apply Hall. right. assumption.
  - split; [discriminate | intros (_ & Heq & _); contradiction].
Qed.

(** Participants that [IsRole] does not count as signatories are skipped. *)
Lemma participants_loop_filter c isEmbedded ps found :
  participants_loop c isEmbedded ps found
  = participants_loop c isEmbedded (List.filter is_signatory ps) found.
Proof.
  revert found. induction ps as [| p ps IH]; intros found; [reflexivity |].
  cbn [participants_loop List.filter]. unfold is_signatory at 1.
  destruct (IsRole (Some p) Signatory) eqn:Hrole.
  - cbn [participants_loop]. rewrite Hrole.
    destruct (signatures_loop _ _ _ _ _); cbn [rbind]; [apply IH | reflexivity].
  - apply IH.
Qed.

Lemma participants_loop_found c isEmbedded qs b :
  (forall q, In q qs -> is_signatory q = true) ->
  (participants_loop c isEmbedded qs true = Ok b <->
   b = true /\
   forall q, In q qs ->
     packages_pass c isEmbedded (cs_Signatures (ic_ContractSignatures c)) q).
Proof.
  revert b. induction qs as [| q qs IH]; intros b Hsig; cbn [participants_loop].
  - split; [intros [= <-]; split; [reflexivity | intros q []]
           | intros [-> _]; reflexivity].
  - rewrite (Hsig q (or_introl eq_refl) : IsRole (Some q) Signatory = true).
    destruct (signatures_loop c isEmbedded q _ true) as [b1 | e] eqn:Hloop;
      cbn [rbind].
    + apply signatures_loop_found in Hloop as [-> Hq].
      rewrite IH by (intros q' Hin; apply Hsig; right; assumption). split.
      * intros [-> Hrest]. split; [reflexivity |].
        intros q' [<- | Hin]; auto.
      * intros [-> Hall]. split; [reflexivity |].
        intros q' Hin. apply Hall. right. assumption.
    + split; [discriminate |]. intros [_ Hall].
      assert (Hok : signatures_loop c isEmbedded q
                      (cs_Signatures (ic_ContractSignatures c)) true = Ok true).
      { apply signatures_loop_found. split; [reflexivity |].
        apply Hall. left. reflexivity. }
      rewrite Hok in Hloop. discriminate.
Qed.

Lemma filter_is_signatory (ps : list ContractParticipant) (q : ContractParticipant) :
  In q (List.filter is_signatory ps) -> is_signatory q = true.
Proof. intros Hin. apply List.filter_In in Hin as [_ Hq]. exact Hq. Qed.

Lemma GetSignatoryCountFromParticipants_filter (cb : ContractBlock) :
  GetSignatoryCountFromParticipants (Some cb)
  = Z.of_nat (List.length (List.filter is_signatory (cb_Participants cb))).
Proof.
  unfold GetSignatoryCountFromParticipants. rewrite count_signatories_filter.
  reflexivity.
Qed.

(** What the checks on a matching package ask of it. *)
Lemma check_matching_package_accepts c isEmbedded sp :
  let pk := scs_ContractSignaturePackage sp in
  check_matching_package c isEmbedded sp = None <->
  csp_UserFullName pk <> "" /\
  csp_DateSigned pk <> 0 /\
  String.length (csp_ContractHash pk) = 44%nat /\
  csp_ContractHash pk = cs_ContractHash (ic_ContractSignatures c) /\
  csp_ContractId pk = cb_ContractID (ic_Contract c) /\
  (isEmbedded = false ->
   String.length (scs_ContractSignaturePackageHash sp) = 44%nat /\
   String.length (scs_Signature sp) = 344%nat).
Proof.
  cbv zeta. unfold check_matching_package, IsZero,
    SHA256_HASH_BASE64_LENGTH, SIGNATURE_RSA2048_BASE64_LENGTH. cbv zeta.
  destruct (String.eqb_spec (csp_UserFullName (scs_ContractSignaturePackage sp)) "");
    [split; [discriminate | tauto] |].
  destruct (Z.eqb_spec (csp_DateSigned (scs_ContractSignaturePackage sp)) 0);
    [split; [discriminate | tauto] |].
  destruct (Nat.eqb_spec (String.length (csp_ContractHash (scs_ContractSignaturePackage sp))) 44);
    cbn [negb]; [| split; [discriminate | tauto]].
  destruct (String.eqb_spec (cs_ContractHash (ic_ContractSignatures c))
              (csp_ContractHash (scs_ContractSignaturePackage sp)));
    cbn [negb]; [| split; [discriminate | intros (_ & _ & _ & Heq & _); congruence]].
  destruct (Z.eqb_spec (csp_ContractId (scs_ContractSignaturePackage sp))
              (cb_ContractID (ic_Contract c)));
    cbn [negb]; [| split; [discriminate | tauto]].
  destruct isEmbedded; cbn [negb].
  { split; [| reflexivity]. intros _. repeat split; try assumption; try congruence.
    all: discriminate. }
  destruct (Nat.eqb_spec (String.length (scs_ContractSignaturePackageHash sp)) 44);
    cbn [negb]; [| split; [discriminate | intros (_ & _ & _ & _ & _ & Hsig);
                           destruct (Hsig eq_refl); contradiction]].
  destruct (String.eqb_spec (scs_Signature sp) "") as [Hempty | _].
  { split; [discriminate |]. intros (_ & _ & _ & _ & _ & Hsig).
    destruct (Hsig eq_refl) as [_ Hlen]. rewrite Hempty in Hlen. discriminate. }
  destruct (Nat.eqb_spec (String.length (scs_Signature sp)) 344);
    cbn [negb]; [| split; [discriminate | intros (_ & _ & _ & _ & _ & Hsig);
                           destruct (Hsig eq_refl); contradiction]].
  split; [| reflexivity]. intros _.
  refine (conj _ (conj _ (conj _ (conj _ (conj _ _))))); try assumption; try congruence.
  intros _. split; assumption.
Qed.

(** X7. [ValidateSignaturesComplete] accepts a contract exactly when the
    hash of the signatures block has 44 characters, there are as many
    packages as participants whose first role is signatory, the first
    package carries the user id of the first of these participants, and
    every package that carries the user id of one of them passes the
    checks on a matching package. It does not ask that each of them has a
    package. *)
Theorem ValidateSignaturesComplete_accepts (c : ImmutableContract) :
  let sigs := cs_Signatures (ic_ContractSignatures c) in
  let signatories := List.filter is_signatory (cb_Participants (ic_Contract c)) in
  let isEmbedded :=
    sm_PackageMethodId (cb_SignatureMethod (ic_Contract c)) =? SignPackageMethodId_Embedded in
  ValidateSignaturesComplete (Some c) = None <->
  String.length (cs_ContractHash (ic_ContractSignatures c)) = 44%nat /\
  List.length sigs = List.length signatories /\
  (exists sp1 p1,
     head sigs = Some sp1 /\ head signatories = Some p1 /\
     csp_UserId (scs_ContractSignaturePackage sp1) = cp_UserId p1) /\
  (forall p, In p signatories -> packages_pass c isEmbedded sigs p).
Proof.
  intros sigs signatories isEmbedded.
  unfold ValidateSignaturesComplete, SHA256_HASH_BASE64_LENGTH.
  destruct (Nat.eqb_spec (String.length (cs_ContractHash (ic_ContractSignatures c))) 44)
    as [Hhash | Hhash]; cbn [negb]; [| split; [discriminate | tauto]].
  cbv zeta. fold sigs. fold isEmbedded.
  rewrite GetSignatoryCountFromParticipants_filter. fold signatories.
  rewrite participants_loop_filter. fold signatories.
  destruct (Z.eqb_spec (Z.of_nat (List.length sigs)) 0) as [Hnone | Hsome].
  { split; [discriminate |]. intros (_ & _ & (sp1 & p1 & Hsp1 & _) & _).
    destruct sigs; [discriminate | cbn in Hnone; lia]. }
  destruct (Z.eqb_spec (Z.of_nat (List.length sigs)) (Z.of_nat (List.length signatories)))
    as [Hcount | Hcount]; cbn [negb]; [| split; [discriminate | intros (_ & Hlen & _); lia]].
  apply Nat2Z.inj in Hcount.
  assert (Hsig : forall q, In q signatories -> is_signatory q = true)
    by apply filter_is_signatory.
  destruct sigs as [| sp1 rest] eqn:Hsigs; [cbn in Hsome; lia |].
  destruct signatories as [| p1 qs] eqn:Hsignatories; [discriminate |].
  cbn [participants_loop].
  rewrite (Hsig p1 (or_introl eq_refl) : IsRole (Some p1) Signatory = true).
  fold sigs. rewrite Hsigs.
  destruct (signatures_loop c isEmbedded p1 (sp1 :: rest) false) as [b1 | e] eqn:Hfirst;
    cbn [rbind].
  - apply signatures_loop_unfound in Hfirst as (-> & Hid & Hp1).
    destruct (participants_loop c isEmbedded qs true) as [b | e] eqn:Hrest.
    + apply participants_loop_found in Hrest as [_ Hqs];
        [| intros q Hin; apply Hsig; right; assumption].
      fold sigs in Hqs. rewrite Hsigs in Hqs.
      split; [| reflexivity]. intros _.
      refine (conj Hhash (conj Hcount (conj _ _))).
      * exists sp1, p1. auto.
      * intros p [<- | Hin]; auto.
    + split; [discriminate |]. intros (_ & _ & _ & Hall).
      assert (Hok : participants_loop c isEmbedded qs true = Ok true).
      { apply participants_loop_found;
          [intros q Hin; apply Hsig; right; assumption |].
        split; [reflexivity |]. intros q Hin. fold sigs. rewrite Hsigs.
        apply Hall. right. assumption. }
      rewrite Hok in Hrest. discriminate.
  - split; [discriminate |].
    intros (_ & _ & (sp1' & p1' & [= <-] & [= <-] & Hid) & Hall).
    assert (Hok : signatures_loop c isEmbedded p1 (sp1 :: rest) false = Ok true).
    { apply signatures_loop_unfound. repeat split; [assumption |].
      apply Hall. left. reflexivity. }
    rewrite Hok in Hfirst. discriminate.
Qed.

(** X8. When the first package does not carry the user id of the first
    participant whose first role is signatory, the check fails with the
    missing-package error for that participant, wherever in the list
    the participant's package is. *)
Theorem ValidateSignaturesComplete_first_package
    (c : ImmutableContract) (sp1 : SignedContractSignature) (p1 : ContractParticipant) :
  let sigs := cs_Signatures (ic_ContractSignatures c) in
  let signatories := List.filter is_signatory (cb_Participants (ic_Contract c)) in
  String.length (cs_ContractHash (ic_ContractSignatures c)) = 44%nat ->
  List.length sigs = List.length signatories ->
  head sigs = Some sp1 ->
  head signatories = Some p1 ->
  csp_UserId (scs_ContractSignaturePackage sp1) <> cp_UserId p1 ->
  ValidateSignaturesComplete (Some c) = Some (missing_package_err (cp_UserId p1)).
Proof.
  intros sigs signatories Hhash Hcount Hsp1 Hp1 Hid.
  unfold ValidateSignaturesComplete, SHA256_HASH_BASE64_LENGTH.
  rewrite Hhash. cbn [Nat.eqb negb]. cbv zeta.
  fold sigs. rewrite GetSignatoryCountFromParticipants_filter. fold signatories.
  rewrite participants_loop_filter. fold signatories.
  rewrite Hcount, Z.eqb_refl. cbn [negb].
  destruct signatories as [| p qs] eqn:Hsignatories; [discriminate |].
  injection Hp1 as ->.
  assert (Hrole : is_signatory p1 = true).
  { apply (filter_is_signatory (cb_Participants (ic_Contract c))).
    fold signatories. rewrite Hsignatories. left. reflexivity. }
  destruct sigs as [| sp rest] eqn:Hsigs; [discriminate |].
  injection Hsp1 as ->.
  cbn [List.length]. rewrite Nat2Z.inj_succ.
  destruct (Z.eqb_spec (Z.succ (Z.of_nat (List.length qs))) 0); [lia |].
  cbn [participants_loop]. rewrite (Hrole : IsRole (Some p1) Signatory = true).
  fold sigs. rewrite Hsigs.
  rewrite signatures_loop_first_package by assumption. reflexivity.
Qed.

Lemma ValidateSignaturesComplete_accepts_witness :
  ValidateSignaturesComplete
    (Some (sample.document 1 [sample.alice; sample.bob]
             [sample.signed "c101" "Alice"; sample.signed "n48" "Nora"]))
  = None.
Proof.
  apply ValidateSignaturesComplete_accepts.
  refine (conj eq_refl (conj eq_refl (conj _ _))).
  - exists (sample.signed "c101" "Alice"), sample.alice. repeat split.
  - intros p [<- | [<- | []]] sp [<- | [<- | []]]; try discriminate.
    intros _. reflexivity.
Defined.

Lemma ValidateSignaturesComplete_first_package_witness :
  ValidateSignaturesComplete
    (Some (sample.document 1 [sample.alice; sample.bob]
             [sample.signed "c102" "Bob"; sample.signed "c101" "Alice"]))
  = Some (missing_package_err "c101").
Proof.
  apply (ValidateSignaturesComplete_first_package
           (sample.document 1 [sample.alice; sample.bob]
              [sample.signed "c102" "Bob"; sample.signed "c101" "Alice"])
           (sample.signed "c102" "Bob") sample.alice).
  - reflexivity.
  - reflexivity.
  - reflexivity.
  - reflexivity.
  - discriminate.
Defined.

End SignatureCompleteness.

(** * More on the ledger operations *)

Section Operations.
Import contract service.
Context `{GoRuntime}.
Context `{JSON ImmutableContract} `{JSON Contract}
        `{JSON NewAssetReq} `{JSON VoidAssetReq}.

Lemma stored_asset_functional (ctx : Ctx) (key : string) (a a' : Contract) :
  stored_asset ctx key a -> stored_asset ctx key a' -> a = a'.
Proof.
  intros (b & Hb & Ha) (b' & Hb' & Ha'). congruence.
Qed.

(** X9. Whichever of [CreateAsset], [VoidAsset] and [ExpireAsset] returns
    an error has left the world state and the log of writes as they
    were. *)
Theorem failed_operation_writes_nothing (data : string) (ctx ctx' : Ctx) (e : string) :
  CreateAsset data ctx = (Err e, ctx') \/
  VoidAsset data ctx = (Err e, ctx') \/
  ExpireAsset data ctx = (Err e, ctx') ->
  ctx' = ctx.
Proof.
  intros [Hrun | [Hrun | Hrun]].
  - eapply CreateAsset_error_no_write; eassumption.
  - eapply VoidAsset_error_no_write; eassumption.
  - eapply ExpireAsset_error_no_write; eassumption.
Qed.

(** X10. Whichever of the three operations succeeds has made exactly one
    [PutState]: the context it leaves is the one it found with one entry
    written. *)
Theorem successful_operation_writes_once (data : string) (ctx ctx' : Ctx) :
  (exists resp, CreateAsset data ctx = (Ok resp, ctx')) \/
  (exists resp, VoidAsset data ctx = (Ok resp, ctx')) \/
  (exists resp, ExpireAsset data ctx = (Ok resp, ctx')) ->
  exists key value,
    ctx' = written ctx key value /\
    ctx_putLog ctx' = (ctx_putLog ctx ++ [(key, value)])%list.
Proof.
  intros [[resp Hrun] | [[resp Hrun] | [resp Hrun]]].
  - apply CreateAsset_inv in Hrun
      as [(e & [=] & _) | (cc & j & _ & _ & _ & _ & _ & _ & ->)]. eauto.
  - apply VoidAsset_inv in Hrun
      as [(e & [=] & _) | (cc & a & j & _ & _ & _ & _ & _ & _ & _ & _ & ->)]. eauto.
  - apply ExpireAsset_inv in Hrun
      as [(e & [=] & _) | (cc & a & j & _ & _ & _ & _ & _ & _ & _ & ->)]. eauto.
Qed.

(** X11. A hash that is not the digest of the document submitted makes
    each of the three operations fail with "invalid immutable contract
    hash", before the ledger is read or written. *)
Theorem hash_mismatch_rejected
    (ctx : Ctx) (data : string) (hash : string) :
  (forall cc : NewAssetReq,
     ParseRequest data = Ok cc ->
     JsonHashS256 (Some (nar_ImmutableContract cc)) = Ok hash ->
     hash <> nar_ImmutableContractHash cc ->
     CreateAsset data ctx = (Err "invalid immutable contract hash", ctx)) /\
  (forall cc : VoidAssetReq,
     ParseRequest data = Ok cc ->
     JsonHashS256 (Some (var_ImmutableContract cc)) = Ok hash ->
     hash <> var_ImmutableContractHash cc ->
     VoidAsset data ctx = (Err "invalid immutable contract hash", ctx) /\
     ExpireAsset data ctx = (Err "invalid immutable contract hash", ctx)).
Proof.
  split.
  - intros cc Hparse Hhash Hne.
    unfold CreateAsset, bind at 1, lift at 1. rewrite Hparse.
    unfold bind at 1, lift at 1. rewrite Hhash.
    apply String.eqb_neq in Hne. rewrite Hne. reflexivity.
  - intros cc Hparse Hhash Hne. apply String.eqb_neq in Hne. split.
    + unfold VoidAsset, bind at 1, lift at 1. rewrite Hparse.
      unfold bind at 1, lift at 1. rewrite Hhash, Hne. reflexivity.
    + unfold ExpireAsset, bind at 1, lift at 1. rewrite Hparse.
      unfold bind at 1, lift at 1. rewrite Hhash, Hne. reflexivity.
Qed.

(** X12. A document whose block and definition differ in schema version
    makes [VoidAsset] and [ExpireAsset] fail with the schema-version error,
    before the validator runs and before the ledger is read. *)
Theorem transitions_schema_gate (data : string) (cc : VoidAssetReq) (ctx : Ctx) :
  ParseRequest data = Ok cc ->
  hash_bound (var_ImmutableContract cc) (var_ImmutableContractHash cc) ->
  ~ schema_version_matches (ic_Contract (var_ImmutableContract cc)) ->
  VoidAsset data ctx
  = (Err "contract schema version does not match with definition", ctx) /\
  ExpireAsset data ctx
  = (Err "contract schema version does not match with definition", ctx).
Proof.
  intros Hparse Hhash Hschema. split.
  - apply (VoidAsset_schema_gate data cc ctx); assumption.
  - apply (ExpireAsset_schema_gate data cc ctx); assumption.
Qed.

(** X13. [AssetExists] and [ReadAsset] agree: when the ledger answers
    the read, [AssetExists] says whether the key is there, [ReadAsset]
    fails with the does-not-exist error on a key that is not, and an asset
    that [ReadAsset] returns exists. Neither changes the context. *)
Theorem AssetExists_ReadAsset (id : string) (ctx : Ctx) :
  ctx_getErr ctx id = None ->
  AssetExists id ctx = (Ok (bool_decide (is_Some (ctx_state ctx !! id))), ctx) /\
  (ctx_state ctx !! id = None ->
   ReadAsset id ctx = (Err ("the asset " ++ id ++ " does not exist"), ctx)) /\
  (forall asset ctx',
     ReadAsset id ctx = (Ok asset, ctx') ->
     ctx' = ctx /\ AssetExists id ctx = (Ok true, ctx)).
Proof.
  intros Hget.
  assert (Hexists : AssetExists id ctx
                    = (Ok (bool_decide (is_Some (ctx_state ctx !! id))), ctx)).
  { unfold AssetExists, bind, wrap_err, GetState, ret. rewrite Hget.
    destruct (ctx_state ctx !! id); reflexivity. }
  split; [exact Hexists |]. split.
  - intros Hnone. unfold ReadAsset, bind, wrap_err, GetState, fail.
    rewrite Hget, Hnone. reflexivity.
  - intros asset ctx' Hread.
    apply ReadAsset_ok in Hread as (-> & _ & b & Hb & _).
    split; [reflexivity |]. rewrite Hexists, Hb. reflexivity.
Qed.

(** X14. [CreateAsset] never overwrites: whatever it returns, every key
    that was in the world state still holds the value it held. *)
Theorem CreateAsset_never_overwrites
    (data : string) (ctx ctx' : Ctx) (r : result CreateAssetResponse) (key : string) :
  is_Some (ctx_state ctx !! key) ->
  CreateAsset data ctx = (r, ctx') ->
  ctx_state ctx' !! key = ctx_state ctx !! key.
Proof.
  intros [b Hb] Hrun.
  apply CreateAsset_inv in Hrun
    as [(e & _ & ->) | (cc & j & _ & _ & Hfree & _ & _ & _ & ->)]; [reflexivity |].
  cbn [written ctx_state]. apply lookup_insert_ne.
  intros <-. rewrite Hfree in Hb. discriminate.
Qed.

(** X15. A second [CreateAsset] with the request of a successful one fails
    with the already-exists error and writes nothing. *)
Theorem CreateAsset_twice (data : string) (ctx ctx' : Ctx) (resp : CreateAssetResponse) :
  CreateAsset data ctx = (Ok resp, ctx') ->
  CreateAsset data ctx'
  = (Err ("the contract " ++ Sprint (car_ContractId resp) ++ " already exists"), ctx').
Proof.
  intros Hrun.
  apply CreateAsset_inv in Hrun
    as [(e & [=] & _) | (cc & j & Hchecks & Hget & _ & _ & _ & [= ->] & ->)].
  rewrite (CreateAsset_run data cc _ Hchecks) by exact Hget.
  cbn [written ctx_state ctx_now car_ContractId]. rewrite lookup_insert_eq.
  reflexivity.
Qed.

(** *** The state check of the transitions *)

(** X16. On a request that passes the checks on its document, with the
    ledger answering, [VoidAsset] succeeds exactly when the state of the
    asset is none of voided, expired and released: a state that is not one
    of the four lifecycle states is treated like active. *)
Theorem VoidAsset_succeeds_iff_not_terminal
    (data : string) (cc : VoidAssetReq) (ctx : Ctx) (asset : Contract)
    (contractJSON : list byte) :
  transition_checks data cc ->
  is_ok (ctx_mspId ctx) = true ->
  ctx_getErr ctx (Sprint (var_ContractId cc)) = None ->
  stored_asset ctx (Sprint (var_ContractId cc)) asset ->
  json_Marshal (transition asset cc (ctx_now ctx) ContractStateVoided "void")
    = Ok contractJSON ->
  ctx_putErr ctx (Sprint (ContractId asset)) = None ->
  ((exists resp ctx', VoidAsset data ctx = (Ok resp, ctx')) <->
   not_terminal (State asset)) /\
  (not_terminal (State asset) ->
   VoidAsset data ctx
   = (Ok {| vr_TxId := ctx_txId ctx |},
      written ctx (Sprint (ContractId asset)) contractJSON)).
Proof.
  intros Hchecks Hmsp Hget Hstored Hmarshal Hput.
  rewrite (VoidAsset_run data cc ctx asset Hchecks Hmsp Hget Hstored).
  rewrite Hmarshal, Hput. unfold not_terminal.
  destruct (String.eqb_spec (State asset) ContractStateVoided);
    [split; [split; [intros (? & ? & [=]) | tauto] | tauto] |].
  destruct (String.eqb_spec (State asset) ContractStateExpired);
    [split; [split; [intros (? & ? & [=]) | tauto] | tauto] |].
  destruct (String.eqb_spec (State asset) ContractStateReleased);
    [split; [split; [intros (? & ? & [=]) | tauto] | tauto] |].
  split; [split; [tauto | eauto] | reflexivity].
Qed.

(** X17. On a request that passes the checks on its document, with the
    ledger answering, [ExpireAsset] fails on a voided asset with "contract
    voided, cannot expire", on an expired one with "contract already
    expired", on a released one with "contract released, cannot expire",
    and on an asset in any other state it writes the asset back expired
    under the contract id of the request, with one change of action
    "expire" appended. *)
Theorem ExpireAsset_state_machine
    (data : string) (cc : VoidAssetReq) (ctx : Ctx) (asset : Contract)
    (contractJSON : list byte) :
  let key := Sprint (var_ContractId cc) in
  let expired := transition asset cc (ctx_now ctx) ContractStateExpired "expire" in
  transition_checks data cc ->
  ctx_getErr ctx key = None ->
  stored_asset ctx key asset ->
  json_Marshal expired = Ok contractJSON ->
  ctx_putErr ctx key = None ->
  (State asset = ContractStateVoided ->
   ExpireAsset data ctx = (Err "contract voided, cannot expire", ctx)) /\
  (State asset = ContractStateExpired ->
   ExpireAsset data ctx = (Err "contract already expired", ctx)) /\
  (State asset = ContractStateReleased ->
   ExpireAsset data ctx = (Err "contract released, cannot expire", ctx)) /\
  (not_terminal (State asset) ->
   ExpireAsset data ctx
   = (Ok {| er_TxId := ctx_txId ctx |}, written ctx key contractJSON) /\
   State expired = "expired" /\
   UpdatedAt expired = ctx_now ctx /\
   exists change,
     Changes expired = (Changes asset ++ [change])%list /\
     Action change = "expire" /\ NewState change = "expired" /\
     PackageID change = var_PackageId cc /\
     PackageHash change = var_PackageHash cc).
Proof.
  intros key expired Hchecks Hget Hstored Hmarshal Hput.
  pose proof (ExpireAsset_run data cc ctx asset Hchecks Hget Hstored) as Hrun.
  fold key expired in Hrun. rewrite Hmarshal, Hput in Hrun.
  refine (conj _ (conj _ (conj _ _))).
  - intros Hs. rewrite Hrun, Hs. reflexivity.
  - intros Hs. rewrite Hrun, Hs. reflexivity.
  - intros Hs. rewrite Hrun, Hs. reflexivity.
  - intros (Hv & He & Hr). apply String.eqb_neq in Hv, He, Hr.
    rewrite Hv, He, Hr in Hrun. split; [exact Hrun |].
    split; [reflexivity |]. split; [reflexivity |].
    eexists. repeat split.
Qed.

(** X18. Voided, expired and released are final: when the asset under the
    contract id of a request is in one of these states, neither
    [VoidAsset] nor [ExpireAsset] succeeds on the request, whatever else
    the request holds. *)
Theorem terminal_state_is_final
    (data : string) (cc : VoidAssetReq) (ctx : Ctx) (asset : Contract) :
  ParseRequest data = Ok cc ->
  stored_asset ctx (Sprint (var_ContractId cc)) asset ->
  State asset = ContractStateVoided \/ State asset = ContractStateExpired \/
  State asset = ContractStateReleased ->
  (exists e, VoidAsset data ctx = (Err e, ctx)) /\
  (exists e, ExpireAsset data ctx = (Err e, ctx)).
Proof.
  intros Hparse Hstored Hstate.
  assert (Hterminal : ~ not_terminal (State asset)).
  { unfold not_terminal. intros (? & ? & ?). destruct Hstate as [? | [? | ?]]; contradiction. }
  split.
  - destruct (VoidAsset data ctx) as [r ctx'] eqn:Hrun.
    apply VoidAsset_inv in Hrun
      as [(e & -> & ->) | (cc' & a & j & Hchecks & _ & _ & Hstored' & Hnt & _)];
      [eauto |].
    exfalso. destruct Hchecks as (Hparse' & _).
    rewrite Hparse in Hparse'. injection Hparse' as <-.
    rewrite (stored_asset_functional _ _ _ _ Hstored Hstored') in Hterminal.
    contradiction.
  - destruct (ExpireAsset data ctx) as [r ctx'] eqn:Hrun.
    apply ExpireAsset_inv in Hrun
      as [(e & -> & ->) | (cc' & a & j & Hchecks & _ & Hstored' & Hnt & _)];
      [eauto |].
    exfalso. destruct Hchecks as (Hparse' & _).
    rewrite Hparse in Hparse'. injection Hparse' as <-.
    rewrite (stored_asset_functional _ _ _ _ Hstored Hstored') in Hterminal.
    contradiction.
Qed.

(** *** With a JSON codec that reads back what it wrote *)

Section Lossless.
Hypothesis json_roundtrip :
  forall (c : Contract) (b : list byte),
    json_Marshal c = Ok b -> json_Unmarshal b = Ok c.

Lemma ledger_decodes_wf (ctx : Ctx) : ledger_decodes ctx -> ledger_wf ctx.
Proof.
  intros Hdec key asset (b & Hb & Hasset).
  destruct (Hdec key b Hb) as (a & Ha & Hkey & Hstate).
  rewrite Hasset in Ha. injection Ha as <-. split; [exact Hkey |].
  unfold lifecycle_state. tauto.
Qed.

Lemma ledger_decodes_written (ctx : Ctx) (key : string) (c : Contract) (b : list byte) :
  ledger_decodes ctx ->
  json_Marshal c = Ok b ->
  Sprint (ContractId c) = key ->
  State c = ContractStateActive \/ State c = ContractStateVoided \/
  State c = ContractStateExpired ->
  ledger_decodes (written ctx key b).
Proof.
  intros Hdec Hmarshal Hkey Hstate key' b' Hlookup.
  cbn [written ctx_state] in Hlookup.
  destruct (decide (key = key')) as [<- | Hne].
  - rewrite lookup_insert_eq in Hlookup. injection Hlookup as <-.
    exists c. auto.
  - rewrite lookup_insert_ne in Hlookup by exact Hne. apply Hdec. exact Hlookup.
Qed.

(** X19. Every world state that the three operations can produce from the
    empty one holds only values that decode to an asset stored under the
    string form of its own contract id, in state active, voided or
    expired; none is ever stored released. *)
Theorem reachable_ledger_decodes (ctx : Ctx) : reachable ctx -> ledger_decodes ctx.
Proof.
  induction 1 as [ctx Hempty
                 | data ctx r ctx' _ IH Hrun
                 | data ctx r ctx' _ IH Hrun
                 | data ctx r ctx' _ IH Hrun
                 | ctx ctx' _ IH Hstate].
  - intros key b Hb. rewrite Hempty, lookup_empty in Hb. discriminate.
  - apply CreateAsset_inv in Hrun
      as [(e & _ & ->) | (cc & j & _ & _ & _ & Hmarshal & _ & _ & ->)]; [exact IH |].
    eapply ledger_decodes_written; eauto.
  - apply VoidAsset_inv in Hrun
      as [(e & _ & ->) | (cc & a & j & _ & _ & _ & _ & _ & Hmarshal & _ & _ & ->)];
      [exact IH |].
    eapply ledger_decodes_written; eauto.
  - apply ExpireAsset_inv in Hrun
      as [(e & _ & ->) | (cc & a & j & _ & _ & Hstored & _ & Hmarshal & _ & _ & ->)];
      [exact IH |].
    destruct (ledger_decodes_wf _ IH _ _ Hstored) as [Hkey _].
    eapply ledger_decodes_written; eauto.
  - intros key b Hb. rewrite Hstate in Hb. apply IH. exact Hb.
Qed.

(** X20. A successful [CreateAsset] is read back by [ReadAsset] under the
    contract id it returns: the asset is active, has no changes, and was
    created and updated at the time of the operation. *)
Theorem CreateAsset_then_ReadAsset
    (data : string) (ctx ctx' : Ctx) (resp : CreateAssetResponse) :
  CreateAsset data ctx = (Ok resp, ctx') ->
  exists asset,
    ReadAsset (Sprint (car_ContractId resp)) ctx' = (Ok asset, ctx') /\
    ContractId asset = car_ContractId resp /\
    State asset = "active" /\
    Changes asset = [] /\
    CreatedAt asset = ctx_now ctx /\
    UpdatedAt asset = ctx_now ctx.
Proof.
  intros Hrun.
  apply CreateAsset_inv in Hrun
    as [(e & [=] & _) | (cc & j & _ & Hget & _ & Hmarshal & _ & [= ->] & ->)].
  exists (new_contract cc (ctx_now ctx)). split; [| repeat split].
  apply ReadAsset_stored; [exact Hget |].
  exists j. split; [apply lookup_insert_eq | auto].
Qed.

(** X21. After a successful [VoidAsset], a second [VoidAsset] with the
    request fails with "contract already voided" and an [ExpireAsset] with
    it fails with "contract voided, cannot expire". *)
Theorem VoidAsset_then_transitions_fail
    (data : string) (ctx ctx' : Ctx) (resp : VoidResponse) :
  ledger_wf ctx ->
  VoidAsset data ctx = (Ok resp, ctx') ->
  VoidAsset data ctx' = (Err "contract already voided", ctx') /\
  ExpireAsset data ctx' = (Err "contract voided, cannot expire", ctx').
Proof.
  intros Hwf Hrun. apply VoidAsset_inv in Hrun
    as [(e & [=] & _) | (cc & a & j & Hchecks & Hmsp & Hget & Hstored & _
                          & Hmarshal & _ & _ & ->)].
  destruct (Hwf _ _ Hstored) as [Hkey _]. rewrite Hkey.
  assert (Hvoided : stored_asset (written ctx (Sprint (var_ContractId cc)) j)
                      (Sprint (var_ContractId cc))
                      (transition a cc (ctx_now ctx) ContractStateVoided "void")).
  { exists j. split; [apply lookup_insert_eq | auto]. }
  split.
  - rewrite (VoidAsset_run data cc (written ctx (Sprint (var_ContractId cc)) j)
               _ Hchecks Hmsp Hget Hvoided).
    reflexivity.
  - rewrite (ExpireAsset_run data cc (written ctx (Sprint (var_ContractId cc)) j)
               _ Hchecks Hget Hvoided).
    reflexivity.
Qed.

(** X22. No operation removes an asset or rewrites its history: after
    any run of [CreateAsset], [VoidAsset] or [ExpireAsset] on a ledger in
    which assets are stored under their own ids, an asset that was stored
    is still stored under its key, with the same [ContractId], [Version],
    [ContractHash] and [CreatedAt], and its changes are those it had,
    possibly followed by more. *)
Theorem history_only_grows
    (data : string) (ctx ctx' : Ctx) (key : string) (asset : Contract) :
  ledger_wf ctx ->
  (exists r, CreateAsset data ctx = (r, ctx')) \/
  (exists r, VoidAsset data ctx = (r, ctx')) \/
  (exists r, ExpireAsset data ctx = (r, ctx')) ->
  stored_asset ctx key asset ->
  exists asset', stored_asset ctx' key asset' /\ extends asset asset'.
Proof.
  intros Hwf Hstep Hstored.
  assert (Hsame : extends asset asset).
  { unfold extends. repeat split. exists []. rewrite app_nil_r. reflexivity. }
  assert (Hother : forall key' j, key' <> key ->
            stored_asset (written ctx key' j) key asset).
  { intros key' j Hne. destruct Hstored as (b & Hb & Ha). exists b.
    split; [| exact Ha]. cbn [written ctx_state].
    rewrite lookup_insert_ne by exact Hne. exact Hb. }
  assert (Hmoved : forall cc a j newState action,
            stored_asset ctx (Sprint (var_ContractId cc)) a ->
            json_Marshal (transition a cc (ctx_now ctx) newState action) = Ok j ->
            exists asset',
              stored_asset (written ctx (Sprint (var_ContractId cc)) j) key asset' /\
              extends asset asset').
  { intros cc a j newState action Ha Hmarshal.
    destruct (decide (Sprint (var_ContractId cc) = key)) as [Heq | Hne];
      [| exists asset; auto].
    subst key. rewrite (stored_asset_functional _ _ _ _ Hstored Ha).
    exists (transition a cc (ctx_now ctx) newState action). split.
    - exists j. split; [apply lookup_insert_eq | auto].
    - unfold extends. cbn [transition ContractId Version ContractHash CreatedAt Changes].
      repeat split. eexists. reflexivity. }
  destruct Hstep as [[r Hrun] | [[r Hrun] | [r Hrun]]].
  - apply CreateAsset_inv in Hrun
      as [(e & _ & ->) | (cc & j & _ & _ & Hfree & _ & _ & _ & ->)];
      [exists asset; auto |].
    exists asset. split; [| exact Hsame]. apply Hother.
    intros <-. destruct Hstored as (b & Hb & _). rewrite Hfree in Hb. discriminate.
  - apply VoidAsset_inv in Hrun
      as [(e & _ & ->) | (cc & a & j & _ & _ & _ & Ha & _ & Hmarshal & _ & _ & ->)];
      [exists asset; auto |].
    destruct (Hwf _ _ Ha) as [Hkey _]. rewrite Hkey. eapply Hmoved; eassumption.
  - apply ExpireAsset_inv in Hrun
      as [(e & _ & ->) | (cc & a & j & _ & _ & Ha & _ & Hmarshal & _ & _ & ->)];
      [exists asset; auto |].
    eapply Hmoved; eassumption.
Qed.

End Lossless.

End Operations.

(** * Listing the assets *)

Section Listing.
Import contract service.
Context `{JSON Contract}.

Lemma GetAllAssets_loop_prefix (it : list (result QueryResult)) (acc cs : list Contract)
    (err : error) :
  GetAllAssets_loop it acc = (cs, err) ->
  exists n ds,
    cs = (acc ++ ds)%list /\
    Forall2 decodes_to (take n it) ds /\
    match err with
    | None => n = List.length it
    | Some e =>
        it !! n = Some (Err e) \/
        exists kv, it !! n = Some (Ok kv) /\ json_Unmarshal (snd kv) = Err e
    end.
Proof.
  revert acc. induction it as [| q it IH]; intros acc; cbn [GetAllAssets_loop].
  - intros [= <- <-]. exists 0%nat, []. rewrite app_nil_r. repeat split. constructor.
  - destruct q as [kv | e].
    + destruct (json_Unmarshal (snd kv)) as [c | e] eqn:Hdecode.
      * intros Hloop. apply IH in Hloop as (n & ds & -> & Hds & Herr).
        exists (S n), (c :: ds). rewrite <- app_assoc. split; [reflexivity |].
        split; [constructor; [exists kv; auto | exact Hds] |].
        destruct err; [exact Herr | cbn [List.length]; congruence].
      * intros [= <- <-]. exists 0%nat, []. rewrite app_nil_r.
        split; [reflexivity |]. split; [constructor |].
        right. exists kv. auto.
    + intros [= <- <-]. exists 0%nat, []. rewrite app_nil_r.
      split; [reflexivity |]. split; [constructor |]. left. reflexivity.
Qed.

(** X23. [GetAllAssets] returns the assets decoded from the entries of the
    scan up to the first failure, in the order of the scan: all of them and
    no error when every [Next] and every decoding succeeds, otherwise the
    ones before the failing entry together with the error of that entry.
    When the scan itself fails it returns no asset and the error. *)
Theorem GetAllAssets_prefix
    (scan : result (list (result QueryResult))) (cs : list Contract) (err : error) :
  GetAllAssets scan = (cs, err) ->
  match scan with
  | Err e => cs = [] /\ err = Some e
  | Ok it =>
      exists n,
        Forall2 decodes_to (take n it) cs /\
        match err with
        | None => n = List.length it
        | Some e =>
            it !! n = Some (Err e) \/
            exists kv, it !! n = Some (Ok kv) /\ json_Unmarshal (snd kv) = Err e
        end
  end.
Proof.
  destruct scan as [it | e]; cbn [GetAllAssets].
  - intros Hloop. apply GetAllAssets_loop_prefix in Hloop as (n & ds & -> & Hds & Herr).
    exists n. auto.
  - intros [= <- <-]. auto.
Qed.

Lemma GetAllAssets_loop_all (l : list QueryResult) (acc : list Contract) :
  (forall kv, In kv l ->
     exists c, json_Unmarshal (snd kv) = Ok c /\ fst kv = Sprint (ContractId c)) ->
  exists ds,
    GetAllAssets_loop (List.map Ok l) acc = ((acc ++ ds)%list, None) /\
    Forall2 (fun kv c => json_Unmarshal (snd kv) = Ok c /\
                         fst kv = Sprint (ContractId c)) l ds.
Proof.
  revert acc. induction l as [| kv l IH]; intros acc Hall; cbn [List.map GetAllAssets_loop].
  - exists []. rewrite app_nil_r. split; [reflexivity | constructor].
  - destruct (Hall kv (or_introl eq_refl)) as (c & Hc & Hkey). rewrite Hc.
    destruct (IH (acc ++ [c])%list) as (ds & Hloop & Hds).
    { intros kv' Hin. apply Hall. right. exact Hin. }
    exists (c :: ds). rewrite <- app_assoc in Hloop. split; [exact Hloop |].
    constructor; auto.
Qed.

#[local] Instance key_le_total : Total key_le.
Proof. intros x y. apply String.leb_total. Qed.

(** X24. On a world state whose values all decode, as those the service
    writes do, and with the ledger answering, [GetAllAssets] returns no
    error and exactly the stored assets, one for each key, in the order of
    their keys. *)
Theorem GetAllAssets_full_scan (ctx : Ctx) :
  ledger_decodes ctx ->
  exists cs,
    GetAllAssets (full_scan ctx) = (cs, None) /\
    List.length cs = size (ctx_state ctx) /\
    (forall c, In c cs <-> exists key, stored_asset ctx key c) /\
    Sorted (fun a b => String.leb (Sprint (ContractId a)) (Sprint (ContractId b)) = true) cs.
Proof.
  intros Hdec. unfold full_scan, GetAllAssets.
  set (l := merge_sort key_le (map_to_list (ctx_state ctx))).
  assert (Hl : forall kv, In kv l <-> ctx_state ctx !! fst kv = Some (snd kv)).
  { intros [k b]. rewrite <- list_elem_of_In. unfold l.
    rewrite merge_sort_Permutation. apply elem_of_map_to_list. }
  destruct (GetAllAssets_loop_all l []) as (ds & Hloop & Hds).
  { intros kv Hin. apply Hl in Hin. destruct (Hdec _ _ Hin) as (a & Ha & Hkey & _). eauto. }
  exists ds. split; [exact Hloop |]. split; [| split].
  - rewrite <- (Forall2_length _ _ _ Hds). unfold l.
    rewrite merge_sort_Permutation. apply length_map_to_list.
  - intros c. split.
    + intros Hin. apply list_elem_of_In in Hin.
      destruct (proj1 (list_elem_of_lookup _ _) Hin) as [i Hi].
      destruct (Forall2_lookup_r _ _ _ _ _ Hds Hi) as (kv & Hkv & Hc & _).
      exists (fst kv), (snd kv). split; [| exact Hc].
      apply Hl, list_elem_of_In, (list_elem_of_lookup_2 _ i). exact Hkv.
    + intros (key & b & Hb & Hc).
      assert (Hin : In (key, b) l) by (apply Hl; exact Hb).
      apply list_elem_of_In in Hin.
      destruct (proj1 (list_elem_of_lookup _ _) Hin) as [i Hi].
      destruct (Forall2_lookup_l _ _ _ _ _ Hds Hi) as (c' & Hc' & Hdecode & _).
      cbn [snd] in Hdecode. rewrite Hc in Hdecode. injection Hdecode as <-.
      apply list_elem_of_In, (list_elem_of_lookup_2 _ i). exact Hc'.
  - assert (Hsorted : Sorted key_le l) by apply Sorted_merge_sort, _.
    clear Hl Hloop. revert Hsorted Hds. generalize l. clear l.
    intros l Hsorted. revert ds.
    induction Hsorted as [| kv l _ IH Hhd]; intros ds Hkeys.
    + inversion Hkeys. constructor.
    + inversion Hkeys as [| ? c ? ds' [_ Hkv] Hrest]; subst.
      constructor; [apply IH; exact Hrest |].
      destruct Hhd as [| kv' l' Hle]; inversion Hrest as [| ? c' ? ? [_ Hkv'] ?]; subst;
        constructor.
      unfold key_le in Hle. rewrite Hkv, Hkv' in Hle. exact Hle.
Qed.

End Listing.

(** * The checksum of an asset *)

Section ChecksumFacts.
Import service.
Context `{GoMD5}.

Lemma upper_digit (v : N) : hex.is_upper_hex (hex.upper (hex.digit v)) = true.
Proof.
  unfold hex.digit.
  assert (Hlt : (N.land v 15 < 16)%N).
  { change 15%N with (N.ones 4). rewrite N.land_ones. apply N.mod_lt. discriminate. }
  destruct (N.land v 15) as [| p]; [reflexivity |].
  do 4 (destruct p as [p | p |]; try reflexivity); lia.
Qed.

Lemma ToUpper_Sprintf_x_length (b : list byte) :
  String.length (hex.ToUpper (hex.Sprintf_x b)) = (2 * List.length b)%nat.
Proof.
  induction b as [| b0 b IH]; [reflexivity |].
  cbn [hex.Sprintf_x hex.ToUpper String.length List.length]. rewrite IH. lia.
Qed.

Lemma ToUpper_Sprintf_x_chars (b : list byte) :
  forallb hex.is_upper_hex (list_ascii_of_string (hex.ToUpper (hex.Sprintf_x b))) = true.
Proof.
  induction b as [| b0 b IH]; [reflexivity |].
  cbn [hex.Sprintf_x hex.ToUpper list_ascii_of_string forallb].
  rewrite !upper_digit, IH. reflexivity.
Qed.

(** X25. The checksum of an asset is a string of 32 characters, each a
    digit or a letter from A to F, and depends on the asset through its
    contract hash only. *)
Theorem Checksum_format (e : Contract) :
  String.length (Checksum e) = 32%nat /\
  forallb hex.is_upper_hex (list_ascii_of_string (Checksum e)) = true /\
  forall e', ContractHash e' = ContractHash e -> Checksum e' = Checksum e.
Proof.
  unfold Checksum. split; [| split].
  - rewrite ToUpper_Sprintf_x_length, md5_Size. reflexivity.
  - apply ToUpper_Sprintf_x_chars.
  - intros e' ->. reflexivity.
Qed.

End ChecksumFacts.

(** * Counting the signatories *)

Section Counting.
Import contract.

(** X26. [GetSignatoryCountFromParticipants] returns the number of
    participants whose first role is signatory; it is at most the number
    of participants, and a participant that holds the role after another
    one is not counted. *)
Theorem GetSignatoryCountFromParticipants_counts (cb : ContractBlock) :
  GetSignatoryCountFromParticipants (Some cb)
  = Z.of_nat (List.length (List.filter is_signatory (cb_Participants cb))) /\
  (forall p, is_signatory p = true <-> head (cp_Roles p) = Some Signatory) /\
  0 <= GetSignatoryCountFromParticipants (Some cb)
    <= Z.of_nat (List.length (cb_Participants cb)).
Proof.
  rewrite GetSignatoryCountFromParticipants_filter.
  split; [reflexivity |]. split.
  - intros p. unfold is_signatory. rewrite IsRole_first_role.
    split; [tauto | intros Hhead; split; [discriminate | exact Hhead]].
  - pose proof (List.filter_length_le is_signatory (cb_Participants cb)). lia.
Qed.

End Counting.

(** * What the transitions do not compare *)

Section Binding.
Import contract service.
Context `{GoRuntime}.
Context `{JSON ImmutableContract} `{JSON Contract} `{JSON VoidAssetReq}.

(** X27. [VoidAsset] compares the hash of the request with the digest of
    the document of the request only. It voids the active asset stored
    under the contract id of the request also when the hash stored with
    the asset is not the hash of the request and when the document
    submitted carries another contract id; the asset keeps the hash it was
    stored with. *)
Theorem VoidAsset_accepts_other_document
    (data : string) (cc : VoidAssetReq) (ctx : Ctx) (asset : Contract)
    (contractJSON : list byte) :
  let voided := transition asset cc (ctx_now ctx) ContractStateVoided "void" in
  transition_checks data cc ->
  is_ok (ctx_mspId ctx) = true ->
  ctx_getErr ctx (Sprint (var_ContractId cc)) = None ->
  stored_asset ctx (Sprint (var_ContractId cc)) asset ->
  State asset = ContractStateActive ->
  json_Marshal voided = Ok contractJSON ->
  ctx_putErr ctx (Sprint (ContractId asset)) = None ->
  ContractHash asset <> var_ImmutableContractHash cc ->
  cb_ContractID (ic_Contract (var_ImmutableContract cc)) <> var_ContractId cc ->
  VoidAsset data ctx
  = (Ok {| vr_TxId := ctx_txId ctx |},
     written ctx (Sprint (ContractId asset)) contractJSON) /\
  ContractHash voided = ContractHash asset.
Proof.
  intros voided Hchecks Hmsp Hget Hstored Hstate Hmarshal Hput _ _.
  split; [| reflexivity].
  rewrite (VoidAsset_run data cc ctx asset Hchecks Hmsp Hget Hstored).
  fold voided. rewrite Hstate, Hmarshal, Hput. reflexivity.
Qed.

End Binding.

(** * The further results, on the sample documents and runtimes *)

Section MoreWitnesses.
Import contract service.

Local Abbreviation rt := sample_runtime.runtime.
Local Abbreviation jd := sample_runtime.json_document.
Local Abbreviation ja := sample_runtime.json_asset.
Local Abbreviation jc := sample_codec.json_asset.
Local Abbreviation jn := (sample_runtime.json_request (sample_runtime.new_request 1)).
Local Abbreviation jv := (sample_runtime.json_request sample_runtime.void_request).
Local Abbreviation ctx0 := (sample_runtime.context ∅).
Local Abbreviation ctx_in state := (sample_runtime.context (sample_runtime.ledger state)).

Lemma ContractSignaturePackage_Validate_embedded_witness :
  ContractSignaturePackage_Validate
    (scs_ContractSignaturePackage (sample.signed "c101" "Alice")) 1 = None.
Proof.
  destruct (ContractSignaturePackage_Validate_embedded
              (scs_ContractSignaturePackage (sample.signed "c101" "Alice")) 1)
    as [[_ Hback] _]; [discriminate |].
  apply Hback. repeat split; discriminate.
Defined.

Lemma failed_operation_writes_nothing_witness :
  snd (@VoidAsset rt jd ja jv "void-7" (ctx_in "voided")) = ctx_in "voided".
Proof.
  apply (@failed_operation_writes_nothing rt jd ja jn jv
           "void-7" (ctx_in "voided") _ "contract already voided").
  right. left. reflexivity.
Defined.

Lemma successful_operation_writes_once_witness :
  exists key value,
    written ctx0 "7" (list_byte_of_string "active") = written ctx0 key value /\
    ctx_putLog (written ctx0 "7" (list_byte_of_string "active"))
    = (ctx_putLog ctx0 ++ [(key, value)])%list.
Proof.
  apply (@successful_operation_writes_once rt jd ja jn jv "new-7" ctx0).
  left. exists {| car_ContractId := 7; car_TxId := "tx-1" |}. reflexivity.
Defined.

Lemma hash_mismatch_rejected_witness :
  @VoidAsset rt jd ja
    (sample_runtime.json_request (sample_requests.transition_request 1 "forged"))
    "void-7" (ctx_in "active")
  = (Err "invalid immutable contract hash", ctx_in "active").
Proof.
  destruct (@hash_mismatch_rejected rt jd ja jn
              (sample_runtime.json_request (sample_requests.transition_request 1 "forged"))
              (ctx_in "active") "void-7" sample.hash44) as [_ Htransitions].
  apply (Htransitions (sample_requests.transition_request 1 "forged")).
  - reflexivity.
  - reflexivity.
  - discriminate.
Defined.

Lemma transitions_schema_gate_witness :
  @ExpireAsset rt jd ja
    (sample_runtime.json_request (sample_requests.transition_request 2 sample.hash44))
    "expire-7" (ctx_in "active")
  = (Err "contract schema version does not match with definition", ctx_in "active").
Proof.
  apply (@transitions_schema_gate rt jd ja
           (sample_runtime.json_request (sample_requests.transition_request 2 sample.hash44))
           "expire-7" (sample_requests.transition_request 2 sample.hash44)
           (ctx_in "active")).
  - reflexivity.
  - reflexivity.
  - unfold schema_version_matches. cbn. lia.
Defined.

Lemma AssetExists_ReadAsset_witness :
  AssetExists "7" (ctx_in "active") = (Ok true, ctx_in "active") /\
  @ReadAsset ja "8" (ctx_in "active")
  = (Err "the asset 8 does not exist", ctx_in "active").
Proof.
  destruct (@AssetExists_ReadAsset ja "7" (ctx_in "active") eq_refl) as [Hexists _].
  destruct (@AssetExists_ReadAsset ja "8" (ctx_in "active") eq_refl) as (_ & Hmissing & _).
  split; [exact Hexists | apply Hmissing; reflexivity].
Defined.

Lemma CreateAsset_never_overwrites_witness :
  ctx_state (snd (@CreateAsset rt jd ja jn "new-7" (ctx_in "voided"))) !! "7"
  = ctx_state (ctx_in "voided") !! "7".
Proof.
  apply (@CreateAsset_never_overwrites rt jd ja jn "new-7" (ctx_in "voided") _
           (fst (@CreateAsset rt jd ja jn "new-7" (ctx_in "voided")))).
  - eexists. reflexivity.
  - apply surjective_pairing.
Defined.

Lemma CreateAsset_twice_witness :
  @CreateAsset rt jd ja jn "new-7" (written ctx0 "7" (list_byte_of_string "active"))
  = (Err "the contract 7 already exists",
     written ctx0 "7" (list_byte_of_string "active")).
Proof.
  apply (@CreateAsset_twice rt jd ja jn "new-7" ctx0 _
           {| car_ContractId := 7; car_TxId := "tx-1" |}).
  reflexivity.
Defined.

Lemma VoidAsset_succeeds_iff_not_terminal_witness :
  @VoidAsset rt jd ja jv "void-7" (ctx_in "pending")
  = (Ok {| vr_TxId := "tx-1" |},
     written (ctx_in "pending") "7" (list_byte_of_string "voided")).
Proof.
  destruct (@VoidAsset_succeeds_iff_not_terminal rt jd ja jv
              "void-7" sample_runtime.void_request (ctx_in "pending")
              (sample_runtime.asset_of_state "pending") (list_byte_of_string "voided")
              sample_transition_checks eq_refl eq_refl (sample_stored "pending")
              eq_refl eq_refl) as [_ Hrun].
  apply Hrun. repeat split; discriminate.
Defined.

Lemma ExpireAsset_state_machine_witness :
  @ExpireAsset rt jd ja jv "expire-7" (ctx_in "active")
  = (Ok {| er_TxId := "tx-1" |},
     written (ctx_in "active") "7" (list_byte_of_string "expired")) /\
  @ExpireAsset rt jd ja jv "expire-7" (ctx_in "voided")
  = (Err "contract voided, cannot expire", ctx_in "voided").
Proof.
  split.
  - destruct (@ExpireAsset_state_machine rt jd ja jv
                "expire-7" sample_runtime.void_request (ctx_in "active")
                (sample_runtime.asset_of_state "active") (list_byte_of_string "expired")
                (conj eq_refl (conj eq_refl (conj eq_refl eq_refl)))
                eq_refl (sample_stored "active") eq_refl eq_refl)
      as (_ & _ & _ & Hactive).
    apply Hactive. repeat split; discriminate.
  - destruct (@ExpireAsset_state_machine rt jd ja jv
                "expire-7" sample_runtime.void_request (ctx_in "voided")
                (sample_runtime.asset_of_state "voided") (list_byte_of_string "expired")
                (conj eq_refl (conj eq_refl (conj eq_refl eq_refl)))
                eq_refl (sample_stored "voided") eq_refl eq_refl)
      as (Hvoided & _).
    apply Hvoided. reflexivity.
Defined.

Lemma terminal_state_is_final_witness :
  (exists e, @VoidAsset rt jd ja jv "void-7" (ctx_in "expired")
             = (Err e, ctx_in "expired")) /\
  (exists e, @ExpireAsset rt jd ja jv "void-7" (ctx_in "expired")
             = (Err e, ctx_in "expired")).
Proof.
  apply (@terminal_state_is_final rt jd ja jv
           "void-7" sample_runtime.void_request (ctx_in "expired")
           (sample_runtime.asset_of_state "expired")).
  - reflexivity.
  - apply sample_stored.
  - right. left. reflexivity.
Defined.

(** *** On the codec that reads back what it wrote *)

Lemma positive_of_bytes_of_positive (p : positive) :
  sample_codec.positive_of_bytes (sample_codec.bytes_of_positive p) = p.
Proof. induction p; cbn; congruence. Qed.

Lemma contract_of_fields_of_contract (c : Contract) :
  sample_codec.contract_of_fields (sample_codec.fields_of_contract c) = c.
Proof.
  destruct c as [id version hash created updated state changes]. cbn. f_equal.
  rewrite List.map_map. rewrite <- (List.map_id changes) at 2.
  apply List.map_ext. intros []. reflexivity.
Qed.

Lemma sample_codec_roundtrip (c : Contract) (b : list byte) :
  @json_Marshal _ jc c = Ok b -> @json_Unmarshal _ jc b = Ok c.
Proof.
  cbn. intros [= <-].
  rewrite positive_of_bytes_of_positive, decode_encode, contract_of_fields_of_contract.
  reflexivity.
Qed.

Lemma sample_codec_stored (a : Contract) :
  @stored_asset jc (sample_runtime.context (sample_codec.ledger a))
    (Sprint (ContractId a)) a.
Proof.
  exists (sample_codec.bytes_of_asset a). split.
  - unfold sample_runtime.context, sample_codec.ledger. cbn [ctx_state].
    apply lookup_singleton_eq.
  - apply sample_codec_roundtrip. reflexivity.
Qed.

Lemma sample_codec_wf (a : Contract) :
  lifecycle_state (State a) ->
  @ledger_wf jc (sample_runtime.context (sample_codec.ledger a)).
Proof.
  intros Hstate key asset (b & Hb & Hasset).
  unfold sample_runtime.context, sample_codec.ledger in Hb. cbn [ctx_state] in Hb.
  apply lookup_singleton_Some in Hb as [<- <-].
  destruct (sample_codec_stored a) as (b & Hb & Ha).
  unfold sample_runtime.context, sample_codec.ledger in Hb. cbn [ctx_state] in Hb.
  rewrite lookup_singleton_eq in Hb. injection Hb as <-.
  rewrite Ha in Hasset. injection Hasset as <-. auto.
Qed.

Local Abbreviation created :=
  (new_contract (sample_runtime.new_request 1) "2024-06-01T12:00:00Z").
Local Abbreviation stored7 := (sample_codec.asset 7 "active").
Local Abbreviation ctx7 := (sample_runtime.context (sample_codec.ledger stored7)).
Local Abbreviation voided7 :=
  (transition stored7 sample_runtime.void_request "2024-06-01T12:00:00Z"
     ContractStateVoided "void").

Lemma sample_codec_create :
  @CreateAsset rt jd jc jn "new-7" ctx0
  = (Ok {| car_ContractId := 7; car_TxId := "tx-1" |},
     written ctx0 "7" (sample_codec.bytes_of_asset created)).
Proof.
  rewrite (@CreateAsset_run rt jd jc jn "new-7" (sample_runtime.new_request 1) ctx0
             (sample_create_checks 1) eq_refl).
  reflexivity.
Qed.

Lemma sample_codec_void :
  @VoidAsset rt jd jc jv "void-7" ctx7
  = (Ok {| vr_TxId := "tx-1" |},
     written ctx7 "7" (sample_codec.bytes_of_asset voided7)).
Proof.
  rewrite (@VoidAsset_run rt jd jc jv "void-7" sample_runtime.void_request ctx7 stored7
             sample_transition_checks eq_refl eq_refl (sample_codec_stored stored7)).
  reflexivity.
Qed.

Lemma reachable_ledger_decodes_witness :
  @ledger_decodes jc (written ctx0 "7" (sample_codec.bytes_of_asset created)).
Proof.
  apply (@reachable_ledger_decodes rt jd jc jn jv sample_codec_roundtrip).
  apply (reachable_CreateAsset "new-7" ctx0
           (Ok {| car_ContractId := 7; car_TxId := "tx-1" |})).
  - apply reachable_empty. reflexivity.
  - apply sample_codec_create.
Defined.

Lemma CreateAsset_then_ReadAsset_witness :
  exists asset,
    @ReadAsset jc "7" (written ctx0 "7" (sample_codec.bytes_of_asset created))
    = (Ok asset, written ctx0 "7" (sample_codec.bytes_of_asset created)) /\
    ContractId asset = 7 /\ State asset = "active" /\ Changes asset = [] /\
    CreatedAt asset = "2024-06-01T12:00:00Z" /\
    UpdatedAt asset = "2024-06-01T12:00:00Z".
Proof.
  apply (@CreateAsset_then_ReadAsset rt jd jc jn sample_codec_roundtrip
           "new-7" ctx0 _ {| car_ContractId := 7; car_TxId := "tx-1" |}).
  apply sample_codec_create.
Defined.

Lemma VoidAsset_then_transitions_fail_witness :
  let ctx' := written ctx7 "7" (sample_codec.bytes_of_asset voided7) in
  @VoidAsset rt jd jc jv "void-7" ctx' = (Err "contract already voided", ctx') /\
  @ExpireAsset rt jd jc jv "void-7" ctx' = (Err "contract voided, cannot expire", ctx').
Proof.
  cbv zeta.
  apply (@VoidAsset_then_transitions_fail rt jd jc jv sample_codec_roundtrip
           "void-7" ctx7 _ {| vr_TxId := "tx-1" |}).
  - apply sample_codec_wf. left. reflexivity.
  - apply sample_codec_void.
Defined.

Lemma history_only_grows_witness :
  exists asset',
    @stored_asset jc (written ctx7 "7" (sample_codec.bytes_of_asset voided7)) "7" asset' /\
    extends stored7 asset'.
Proof.
  apply (@history_only_grows rt jd jc jn jv sample_codec_roundtrip "void-7" ctx7).
  - apply sample_codec_wf. left. reflexivity.
  - right. left. eexists. apply sample_codec_void.
  - apply (sample_codec_stored stored7).
Defined.

Lemma VoidAsset_accepts_other_document_witness :
  let stored9 := sample_codec.asset 9 "active" in
  let ctx9 := sample_runtime.context (sample_codec.ledger stored9) in
  let request := sample_requests.transition_request_for 9 in
  let voided9 :=
    transition stored9 request "2024-06-01T12:00:00Z" ContractStateVoided "void" in
  @VoidAsset rt jd jc (sample_runtime.json_request request) "void-9" ctx9
  = (Ok {| vr_TxId := "tx-1" |},
     written ctx9 "9" (sample_codec.bytes_of_asset voided9)) /\
  ContractHash voided9 = "stored-hash".
Proof.
  cbv zeta.
  apply (@VoidAsset_accepts_other_document rt jd jc
           (sample_runtime.json_request (sample_requests.transition_request_for 9))
           "void-9" (sample_requests.transition_request_for 9)
           (sample_runtime.context (sample_codec.ledger (sample_codec.asset 9 "active")))
           (sample_codec.asset 9 "active")).
  - repeat split.
  - reflexivity.
  - reflexivity.
  - apply (sample_codec_stored (sample_codec.asset 9 "active")).
  - reflexivity.
  - reflexivity.
  - reflexivity.
  - discriminate.
  - discriminate.
Defined.

(** *** Listing *)

Lemma sample_ledger_decodes (state : string) :
  state = "active" \/ state = "voided" \/ state = "expired" ->
  @ledger_decodes ja (ctx_in state).
Proof.
  intros Hstate key b Hb.
  unfold sample_runtime.context, sample_runtime.ledger in Hb. cbn [ctx_state] in Hb.
  apply lookup_singleton_Some in Hb as [<- <-].
  exists (sample_runtime.asset_of_state state). cbn.
  rewrite string_of_list_byte_of_string. auto.
Qed.

Lemma GetAllAssets_prefix_witness :
  exists n,
    Forall2 (@decodes_to ja)
      (take n [Ok ("7", list_byte_of_string "active"); Err "iterator closed";
               Ok ("8", list_byte_of_string "voided")])
      [sample_runtime.asset_of_state "active"] /\
    ([Ok ("7", list_byte_of_string "active"); Err "iterator closed";
      Ok ("8", list_byte_of_string "voided")] !! n
     = Some (@Err QueryResult "iterator closed") \/
     exists kv,
       [Ok ("7", list_byte_of_string "active"); Err "iterator closed";
        Ok ("8", list_byte_of_string "voided")] !! n = Some (Ok kv) /\
       @json_Unmarshal _ ja (snd kv) = Err "iterator closed").
Proof.
  apply (@GetAllAssets_prefix ja
           (Ok [Ok ("7", list_byte_of_string "active"); Err "iterator closed";
                Ok ("8", list_byte_of_string "voided")])
           [sample_runtime.asset_of_state "active"] (Some "iterator closed")).
  reflexivity.
Defined.

Lemma GetAllAssets_full_scan_witness :
  exists cs,
    @GetAllAssets ja (full_scan (ctx_in "voided")) = (cs, None) /\
    List.length cs = size (ctx_state (ctx_in "voided")) /\
    (forall c, In c cs <-> exists key, @stored_asset ja (ctx_in "voided") key c) /\
    Sorted (fun a b => String.leb (Sprint (ContractId a)) (Sprint (ContractId b)) = true) cs.
Proof.
  apply (@GetAllAssets_full_scan ja (ctx_in "voided")).
  apply sample_ledger_decodes. right. left. reflexivity.
Defined.

End MoreWitnesses.
